(** * pi3d.Display: the frame loop of the display controller

    A shallow embedding of [src/pi3d/Display.py].  A [Display] object is a
    record of its attributes; the module globals ([Display.INSTANCE],
    [ALLOW_MULTIPLE_DISPLAYS], [RAISE_EXCEPTIONS]), the clock and the calls
    made on collaborators (logger, OpenGL context, sprites, tk window, mouse)
    live in a [World].  Methods are computations in a state-and-exception
    monad [M] over the pair of both; as in Python, the attribute writes made
    before an exception is raised stay in place.

    Floats are IEEE binary64, as Python's, through Rocq's primitive floats;
    integers are unbounded, and the arithmetic is that of Python 3.
    The model is single threaded: [Locker(self.lock)] blocks are run as plain
    sequences, and a sprite hook is opaque (it returns or raises, and does
    not call back into the display).  Objects of the tk window and mouse
    classes count as true.  [resize], which no property below concerns, is
    left out; [clear] and [set_background] appear as the OpenGL calls they
    make. *)

From Stdlib Require Import PrimFloat ZArith.
From Stdlib Require FloatOps SpecFloat.
From stdpp Require Import gmap list.

Open Scope Z_scope.

(** ** Collaborators *)

(** A sprite is known to the display by its object identity only. *)
Abbreviation Sprite := nat.

(** The three hook calls the display makes on a sprite. *)
Inductive call : Type :=
  | load_opengl (s : Sprite)
  | repaint (s : Sprite) (t : float)
  | unload_opengl (s : Sprite).

Definition receiver (c : call) : Sprite :=
  match c with
  | load_opengl s | repaint s _ | unload_opengl s => s
  end.

(** Exceptions the module can let escape. [HookError c] is whatever the hook
    call [c] raised. *)
Inductive exn : Type :=
  | AssertionError
  | AttributeError
  | ZeroDivisionError
  | OverflowError
  | ValueError
  | Exception_
  | HookError (c : call).

Inductive outcome (A : Type) : Type :=
  | Ret (a : A)
  | Raise (e : exn).
Arguments Ret {A} a.
Arguments Raise {A} e.

Inductive level : Type := LDebug | LInfo | LWarning | LError.

(** Calls that leave the module, in the order they are made. *)
Inductive event : Type :=
  | Log (l : level)
  | Hook (c : call)
  | glClear
  | swapBuffers
  | Sleep (delta : float)
  | opengl_destroy
  | mouse_stop
  | tkwin_destroy
  | tkwin_update
  | create_display (x y w h : Z)
  | mouse_start
  | glMatrixMode_PROJECTION
  | glMatrixMode_MODELVIEW
  | load_identity
  | glFrustumf (l r b t n f : float)
  | glHint
  | glOrthof (l r b t n f : float)
  | glClearColor (r g b alpha : float)
  | glColorMask (a : bool).

Record TkWin : Type := mkTkWin {
  winx : Z;
  winy : Z;
  winfo_pointerxy : Z * Z
}.

Record Mouse : Type := mkMouse {
  mouse_width : Z;
  mouse_height : Z;
  position : Z * Z
}.

(** What the environment supplies: the successive readings of [time.time()],
    which hook calls raise, the screen size reported by [DisplayOpenGL()],
    the tk window [TkWin.TkWin(parent, title, w, h)] builds, the pointer
    position a new [Mouse] reports, and the C library's [tan], which
    [math.tan] calls. *)
Record Externals : Type := mkExternals {
  clock : nat -> float;
  raises : call -> bool;
  opengl_width : Z;
  opengl_height : Z;
  new_tkwin : Z -> Z -> TkWin;
  new_mouse_position : Z * Z;
  tan : float -> float
}.

(** ** Module constants *)

Definition DEFAULT_ASPECT : float := 60.0%float.
Definition DEFAULT_DEPTH : Z := 24.
Definition DEFAULT_NEAR_3D : float := 0.5%float.
Definition DEFAULT_FAR_3D : float := 800.0%float.
Definition DEFAULT_NEAR_2D : float := (-1.0)%float.
Definition DEFAULT_FAR_2D : float := 500.0%float.

(** ** Numbers *)

(** [float(z)] for an integer, as [hht * w] and [c_float(w)] convert one:
    rounded to the nearest double, ties to even; [None] when the integer is
    too large for a double, where Python raises [OverflowError]. *)
Definition float_of_int (z : Z) : option float :=
  match SpecFloat.binary_normalize FloatOps.prec FloatOps.emax z 0 false with
  | SpecFloat.S754_infinity _ => None
  | sf => Some (FloatOps.SF2Prim sf)
  end.

(** The value [ctypes.c_float(x)] holds for a float [x]: [x] rounded to the
    nearest single, ties to even, infinite beyond the range of singles. *)
Definition c_float (x : float) : float :=
  match FloatOps.Prim2SF x with
  | SpecFloat.S754_finite s m e =>
      FloatOps.SF2Prim (SpecFloat.binary_round 24 128 s m e)
  | _ => x
  end.

(** [math.radians(x)]: [x] times the double [pi / 180]. *)
Definition radians (x : float) : float :=
  (x * (0x1.921fb54442d18p+1 / 180))%float.

(** Whether [math.tan(x)] raises [ValueError], given the C library's result
    [r]: a NaN that the argument was not, or an infinity from a finite
    argument. *)
Definition tan_fails (x r : float) : bool :=
  (is_nan r && negb (is_nan x)) || (is_infinity r && is_finite x).

(** ** State *)

(** [self.sprites] starts as a list; [_loop_end] rebinds it to a generator
    expression.  A generator is represented by the items it has still to
    yield; it has no [extend] and every iteration consumes it. *)
Inductive sprite_seq : Type :=
  | SList (l : list Sprite)
  | SGen (rest : list Sprite).

Definition items (q : sprite_seq) : list Sprite :=
  match q with
  | SList l => l
  | SGen rest => rest
  end.

Record Geometry : Type := mkGeometry {
  width : Z;
  height : Z;
  near : float;
  far : float;
  left : Z;
  top : Z;
  right : Z;
  bottom : Z
}.

(** Attributes that [__init__] does not create are options: [time] (set by
    the first [loop_running]), [frames_per_second] (set by the caller, if at
    all), [mouse] and the geometry (both set by [create]). *)
Record Display : Type := mkDisplay {
  ident : nat;
  tkwin : option TkWin;
  sprites : sprite_seq;
  sprites_to_load : gset nat;
  sprites_to_unload : gset nat;
  max_width : Z;
  max_height : Z;
  internal_loop : bool;
  external_loop : bool;
  is_running : bool;
  time : option float;
  frames_per_second : option float;
  mouse : option (option Mouse);
  geometry : option Geometry
}.

Record World : Type := mkWorld {
  INSTANCE : option nat;
  ALLOW_MULTIPLE_DISPLAYS : bool;
  RAISE_EXCEPTIONS : bool;
  ticks : nat;
  trace : list event
}.

(** The module as imported: no display, the flags as written at lines 17-18. *)
Definition initial_world : World :=
  {| INSTANCE := None; ALLOW_MULTIPLE_DISPLAYS := false;
     RAISE_EXCEPTIONS := true; ticks := 0%nat; trace := [] |}.

Definition set_sprites (v : sprite_seq) (d : Display) : Display :=
  {| ident := ident d; tkwin := tkwin d; sprites := v;
     sprites_to_load := sprites_to_load d;
     sprites_to_unload := sprites_to_unload d;
     max_width := max_width d; max_height := max_height d;
     internal_loop := internal_loop d; external_loop := external_loop d;
     is_running := is_running d; time := time d;
     frames_per_second := frames_per_second d; mouse := mouse d;
     geometry := geometry d |}.

Definition set_sprites_to_load (v : gset nat) (d : Display) : Display :=
  {| ident := ident d; tkwin := tkwin d; sprites := sprites d;
     sprites_to_load := v;
     sprites_to_unload := sprites_to_unload d;
     max_width := max_width d; max_height := max_height d;
     internal_loop := internal_loop d; external_loop := external_loop d;
     is_running := is_running d; time := time d;
     frames_per_second := frames_per_second d; mouse := mouse d;
     geometry := geometry d |}.

Definition set_sprites_to_unload (v : gset nat) (d : Display) : Display :=
  {| ident := ident d; tkwin := tkwin d; sprites := sprites d;
     sprites_to_load := sprites_to_load d;
     sprites_to_unload := v;
     max_width := max_width d; max_height := max_height d;
     internal_loop := internal_loop d; external_loop := external_loop d;
     is_running := is_running d; time := time d;
     frames_per_second := frames_per_second d; mouse := mouse d;
     geometry := geometry d |}.

Definition set_external_loop (v : bool) (d : Display) : Display :=
  {| ident := ident d; tkwin := tkwin d; sprites := sprites d;
     sprites_to_load := sprites_to_load d;
     sprites_to_unload := sprites_to_unload d;
     max_width := max_width d; max_height := max_height d;
     internal_loop := internal_loop d; external_loop := v;
     is_running := is_running d; time := time d;
     frames_per_second := frames_per_second d; mouse := mouse d;
     geometry := geometry d |}.

Definition set_is_running (v : bool) (d : Display) : Display :=
  {| ident := ident d; tkwin := tkwin d; sprites := sprites d;
     sprites_to_load := sprites_to_load d;
     sprites_to_unload := sprites_to_unload d;
     max_width := max_width d; max_height := max_height d;
     internal_loop := internal_loop d; external_loop := external_loop d;
     is_running := v; time := time d;
     frames_per_second := frames_per_second d; mouse := mouse d;
     geometry := geometry d |}.

Definition set_time (v : option float) (d : Display) : Display :=
  {| ident := ident d; tkwin := tkwin d; sprites := sprites d;
     sprites_to_load := sprites_to_load d;
     sprites_to_unload := sprites_to_unload d;
     max_width := max_width d; max_height := max_height d;
     internal_loop := internal_loop d; external_loop := external_loop d;
     is_running := is_running d; time := v;
     frames_per_second := frames_per_second d; mouse := mouse d;
     geometry := geometry d |}.

Definition set_mouse (v : option (option Mouse)) (d : Display) : Display :=
  {| ident := ident d; tkwin := tkwin d; sprites := sprites d;
     sprites_to_load := sprites_to_load d;
     sprites_to_unload := sprites_to_unload d;
     max_width := max_width d; max_height := max_height d;
     internal_loop := internal_loop d; external_loop := external_loop d;
     is_running := is_running d; time := time d;
     frames_per_second := frames_per_second d; mouse := v;
     geometry := geometry d |}.

Definition set_geometry (v : option Geometry) (d : Display) : Display :=
  {| ident := ident d; tkwin := tkwin d; sprites := sprites d;
     sprites_to_load := sprites_to_load d;
     sprites_to_unload := sprites_to_unload d;
     max_width := max_width d; max_height := max_height d;
     internal_loop := internal_loop d; external_loop := external_loop d;
     is_running := is_running d; time := time d;
     frames_per_second := frames_per_second d; mouse := mouse d;
     geometry := v |}.

Definition set_INSTANCE (v : option nat) (w : World) : World :=
  {| INSTANCE := v; ALLOW_MULTIPLE_DISPLAYS := ALLOW_MULTIPLE_DISPLAYS w;
     RAISE_EXCEPTIONS := RAISE_EXCEPTIONS w; ticks := ticks w;
     trace := trace w |}.

Definition tick (w : World) : World :=
  {| INSTANCE := INSTANCE w;
     ALLOW_MULTIPLE_DISPLAYS := ALLOW_MULTIPLE_DISPLAYS w;
     RAISE_EXCEPTIONS := RAISE_EXCEPTIONS w; ticks := S (ticks w);
     trace := trace w |}.

Definition record (evs : list event) (w : World) : World :=
  {| INSTANCE := INSTANCE w;
     ALLOW_MULTIPLE_DISPLAYS := ALLOW_MULTIPLE_DISPLAYS w;
     RAISE_EXCEPTIONS := RAISE_EXCEPTIONS w; ticks := ticks w;
     trace := trace w ++ evs |}.

(** ** The monad of method bodies *)

Definition M (A : Type) : Type := Display -> World -> Display * World * outcome A.

Definition ret {A} (a : A) : M A := fun d w => (d, w, Ret a).

Definition raise {A} (e : exn) : M A := fun d w => (d, w, Raise e).

Definition bind {A B} (m : M A) (f : A -> M B) : M B :=
  fun d w =>
    match m d w with
    | (d', w', Ret a) => f a d' w'
    | (d', w', Raise e) => (d', w', Raise e)
    end.

(** [try: m except: h] with a bare [except]. *)
Definition try_except {A} (m : M A) (h : exn -> M A) : M A :=
  fun d w =>
    match m d w with
    | (d', w', Ret a) => (d', w', Ret a)
    | (d', w', Raise e) => h e d' w'
    end.

Declare Scope py_scope.
Delimit Scope py_scope with py.
Notation "x <- m ;; k" := (bind m (fun x => k))
  (at level 100, m at next level, right associativity) : py_scope.
Notation "m ;; k" := (bind m (fun _ => k))
  (at level 100, right associativity) : py_scope.

Definition get_self : M Display := fun d w => (d, w, Ret d).
Definition get_world : M World := fun d w => (d, w, Ret w).
Definition update (f : Display -> Display) : M unit := fun d w => (f d, w, Ret tt).
Definition update_world (f : World -> World) : M unit := fun d w => (d, f w, Ret tt).
Definition emit (ev : event) : M unit := update_world (record [ev]).

(** Truth value of a Python float, and of an optional integer argument. *)
Definition truthy (f : float) : bool := negb (PrimFloat.eqb f 0%float).

Definition truthyZ (o : option Z) : bool :=
  match o with
  | Some z => negb (z =? 0)
  | None => false
  end.

(** ** The class [Display] and the function [create] *)

Section Methods.

Variable E : Externals.

Local Open Scope py_scope.

(** [time.time()]: the next reading of the clock. *)
Definition time_time : M float :=
  fun d w => (d, tick w, Ret (clock E (ticks w))).

(** One hook call on a sprite: the call is made, then it returns or raises. *)
Definition invoke (c : call) : M unit :=
  emit (Hook c) ;;
  if raises E c then raise (HookError c) else ret tt.

(** [for s in l: body(s)].  With [consume] the items come out of the
    generator bound to [self.sprites], which forgets each item as it yields
    it, also when the body then raises. *)
Fixpoint for_in (consume : bool) (l : list Sprite) (body : Sprite -> M unit)
  : M unit :=
  match l with
  | [] => ret tt
  | s :: l' =>
      (if consume then update (set_sprites (SGen l')) else ret tt) ;;
      body s ;;
      for_in consume l' body
  end.

(** Lines 36-57.  [self] is the identity of the object under construction. *)
Definition __init__ (self : nat) (tkwin : option TkWin) (w : World)
  : World * outcome Display :=
  let built (w' : World) :=
    (record [Log LInfo] w',
     Ret {| ident := self; tkwin := tkwin; sprites := SList [];
            sprites_to_load := ∅; sprites_to_unload := ∅;
            max_width := opengl_width E; max_height := opengl_height E;
            internal_loop := false; external_loop := false;
            is_running := true; time := None; frames_per_second := None;
            mouse := None; geometry := None |}) in
  match INSTANCE w with
  | Some _ =>
      if ALLOW_MULTIPLE_DISPLAYS w
      then built (record [Log LWarning] w)
      else (w, Raise AssertionError)
  | None => built (set_INSTANCE (Some self) w)
  end.

(** Lines 91-103. *)
Definition add_sprites (sprites : list Sprite) : M unit :=
  update (fun d => set_sprites_to_load (sprites_to_load d ∪ list_to_set sprites) d).

Definition remove_sprites (sprites : list Sprite) : M unit :=
  update (fun d => set_sprites_to_unload (sprites_to_unload d ∪ list_to_set sprites) d).

Definition stop : M unit := update (set_is_running false).

(** Lines 105-120.  Each release sits in its own [try: ... except: pass]; a
    mouse or tk window that is absent (or [None]) makes the attempt fail
    inside the [try], so nothing is called. *)
Definition destroy : M unit :=
  stop ;;
  emit opengl_destroy ;;
  d <- get_self ;;
  (match mouse d with
   | Some (Some _) => emit mouse_stop
   | _ => ret tt
   end) ;;
  (match tkwin d with
   | Some _ => emit tkwin_destroy
   | None => ret tt
   end) ;;
  update_world (set_INSTANCE None).

(** Lines 181-182: the finaliser.  When the collector runs it is not the
    program's choice, so no method below calls it; a run that wants it calls
    it as a step of its own. *)
Definition __del__ : M unit := destroy.

(** Lines 132-139. *)
Definition mouse_position : M (Z * Z) :=
  d <- get_self ;;
  match mouse d with
  | None => raise AttributeError
  | Some (Some m) => ret (position m)
  | Some None =>
      match tkwin d with
      | Some tk => ret (winfo_pointerxy tk)
      | None => ret (-1, -1)
      end
  end.

(** Lines 174-179, the body of the loop of [_for_each_sprite]: [function]
    names the hook the lambda calls on [s]. *)
Definition guarded (function : Sprite -> call) (s : Sprite) : M unit :=
  try_except (invoke (function s))
    (fun e =>
       emit (Log LError) ;;
       w <- get_world ;;
       if RAISE_EXCEPTIONS w then raise e else ret tt).

(** Lines 170-179. *)
Definition _for_each_sprite (function : Sprite -> call)
    (sprites_arg : option (list Sprite)) : M unit :=
  match sprites_arg with
  | Some l => for_in false l (guarded function)
  | None =>
      d <- get_self ;;
      match sprites d with
      | SList l => for_in false l (guarded function)
      | SGen rest => for_in true rest (guarded function)
      end
  end.

(** Lines 141-148. *)
Definition _loop_begin : M unit :=
  emit glClear ;;
  d <- get_self ;;
  let to_load := sprites_to_load d in
  update (set_sprites_to_load ∅) ;;
  (match sprites d with
   | SList l => update (set_sprites (SList (l ++ elements to_load)))
   | SGen _ => raise AttributeError
   end) ;;
  _for_each_sprite load_opengl (Some (elements to_load)).

(** Lines 151-154: the pending set is swapped out and [self.sprites] rebound
    to the generator [(s for s in self.sprites if s in to_unload)]. *)
Definition _loop_end_commit : M (gset nat) :=
  d <- get_self ;;
  let to_unload := sprites_to_unload d in
  update (set_sprites_to_unload ∅) ;;
  (if decide (to_unload = ∅) then ret tt
   else update (set_sprites
                  (SGen (filter (fun s => s ∈ to_unload) (items (sprites d)))))) ;;
  ret to_unload.

(** Lines 161-162: a plain loop, outside [_for_each_sprite]. *)
Fixpoint unload_all (l : list Sprite) : M unit :=
  match l with
  | [] => ret tt
  | s :: l' => invoke (unload_opengl s) ;; unload_all l'
  end.

(** Lines 151-162: everything of [_loop_end] before the pacing. *)
Definition _loop_end_frame : M unit :=
  to_unload <- _loop_end_commit ;;
  t <- time_time ;;
  _for_each_sprite (fun s => repaint s t) None ;;
  emit swapBuffers ;;
  unload_all (elements to_unload).

(** Lines 164-168. *)
Definition _loop_end_pacing : M unit :=
  d <- get_self ;;
  match frames_per_second d with
  | Some fps =>
      if truthy fps then
        match time d with
        | None => raise AttributeError
        | Some t0 =>
            let t1 := (t0 + 1 / fps)%float in
            update (set_time (Some t1)) ;;
            now <- time_time ;;
            let delta := (t1 - now)%float in
            if (0 <? delta)%float then emit (Sleep delta) else ret tt
        end
      else ret tt
  | None => ret tt
  end.

(** Lines 150-168. *)
Definition _loop_end : M unit :=
  _loop_end_frame ;;
  _loop_end_pacing.

(** Lines 59-74. *)
Definition loop_running : M bool :=
  d <- get_self ;;
  (if is_running d then
     (if internal_loop d then raise AssertionError else ret tt) ;;
     (if external_loop d then _loop_end
      else
        t <- time_time ;;
        update (set_time (Some t)) ;;
        update (set_external_loop true)) ;;
     _loop_begin
   else
     _loop_end ;;
     destroy) ;;
  d' <- get_self ;;
  ret (is_running d').

(** [math.tan(x)]. *)
Definition math_tan (x : float) : M float :=
  let r := tan E x in
  if tan_fails x r then raise ValueError else ret r.

(** An integer operand of a float operation, or argument of [c_float]. *)
Definition to_float (z : Z) : M float :=
  match float_of_int z with
  | Some f => ret f
  | None => raise OverflowError
  end.

(** Lines 188-298.  The header's repeated line is read as the longer
    parameter list; [window_title] and [window_parent] only travel to the tk
    window and are left out, and [self] is the identity of the new object.
    [frames_per_second] is accepted and, as in the source, not used. *)
Definition create (self : nat) (is_3d : bool) (x y w h : option Z)
    (near_ far_ : option float) (aspect : float) (depth : Z)
    (background : option (float * float * float * float))
    (tk mouse_ : bool) (fps : option float) (wd : World)
  : World * outcome Display :=
  let windowed : World * outcome (option TkWin * Z * Z) :=
    if tk then
      if negb (truthyZ w && truthyZ h)
      then (record [Log LError] wd, Raise Exception_)
      else
        let tkw := new_tkwin E (default 0 w) (default 0 h) in
        (record [tkwin_update] wd,
         Ret (Some tkw, default (winx tkw) x, default (winy tkw) y))
    else (wd, Ret (None, default 0 x, default 0 y)) in
  match windowed with
  | (w1, Raise e) => (w1, Raise e)
  | (w1, Ret (tkw, x, y)) =>
      match __init__ self tkw w1 with
      | (w2, Raise e) => (w2, Raise e)
      | (w2, Ret display) =>
          let w :=
            if default 0 w <=? 0 then
              let w' := max_width display - 2 * x in
              if w' <=? 0 then max_width display else w'
            else default 0 w in
          let h :=
            if default 0 h <=? 0 then
              let h' := max_height display - 2 * y in
              if h' <=? 0 then max_height display else h'
            else default 0 h in
          let near :=
            match near_ with
            | Some n => n
            | None => if is_3d then DEFAULT_NEAR_3D else DEFAULT_NEAR_2D
            end in
          let far :=
            match far_ with
            | Some f => f
            | None => if is_3d then DEFAULT_FAR_3D else DEFAULT_FAR_2D
            end in
          let rest : M unit :=
            emit (Log LDebug) ;;
            update (set_geometry
                      (Some {| width := w; height := h; near := near;
                               far := far; left := x; top := y;
                               right := x + w; bottom := y + h |})) ;;
            emit (create_display x y w h) ;;
            update (set_mouse (Some None)) ;;
            (if mouse_ then
               update (set_mouse
                         (Some (Some {| mouse_width := w; mouse_height := h;
                                        position := new_mouse_position E |}))) ;;
               emit mouse_start
             else ret tt) ;;
            emit glMatrixMode_PROJECTION ;;
            emit load_identity ;;
            (if is_3d then
               t <- math_tan (radians (aspect / 2)) ;;
               let hht := (near * t)%float in
               fw <- to_float w ;;
               fh <- to_float h ;;
               (if (fh =? 0)%float then raise ZeroDivisionError else ret tt) ;;
               let hwd := (hht * fw / fh)%float in
               emit (glFrustumf (c_float (- hwd)) (c_float hwd)
                       (c_float (- hht)) (c_float hht)
                       (c_float near) (c_float far)) ;;
               emit glHint
             else
               fw <- to_float w ;;
               fh <- to_float h ;;
               emit (glOrthof (c_float 0) (c_float fw) (c_float 0) (c_float fh)
                       (c_float near) (c_float far))) ;;
            emit glMatrixMode_MODELVIEW ;;
            emit load_identity ;;
            match background with
            | Some (r, g, b, alpha) =>
                emit (glClearColor (c_float r) (c_float g) (c_float b)
                        (c_float alpha)) ;;
                emit (glColorMask (alpha <? 1)%float)
            | None => ret tt
            end in
          match rest display w2 with
          | (d', w', Ret _) => (w', Ret d')
          | (_, w', Raise e) => (w', Raise e)
          end
      end
  end.

End Methods.

(** ** Reading a trace *)

(** The hook calls among some events, in order, and those one sprite got. *)
Definition calls_of (evs : list event) : list call :=
  omap (fun ev => match ev with Hook c => Some c | _ => None end) evs.

Definition received (s : Sprite) (evs : list event) : list call :=
  filter (fun c => receiver c = s) (calls_of evs).

(** The events a pass of [_for_each_sprite] with hook [f] can leave. *)
Definition hook_or_error_log (f : nat -> call) (ev : event) : Prop :=
  ev = Log LError \/ exists s, ev = Hook (f s).

(** Iterating [self.sprites]: a list is walked, a generator is drained. *)
Definition draining (q : sprite_seq) : bool :=
  match q with
  | SList _ => false
  | SGen _ => true
  end.

(** What [self.sprites] holds once lines 151-154 have run. *)
Definition committed (d : Display) : sprite_seq :=
  if decide (sprites_to_unload d = ∅) then sprites d
  else SGen (filter (fun s => s ∈ sprites_to_unload d) (items (sprites d))).

(** The release calls [destroy] makes on a display. *)
Definition releases (d : Display) : list event :=
  opengl_destroy
  :: match mouse d with Some (Some _) => [mouse_stop] | _ => [] end
  ++ match tkwin d with Some _ => [tkwin_destroy] | None => [] end.


(** ** Fixtures for the concrete runs *)

(** An environment in which no hook raises and the clock reads 10.0, 10.25,
    then 10.5 for ever; the identity stands in for the C library's [tan],
    whose values no run below looks at. *)
Definition quiet : Externals :=
  {| clock := fun n =>
       match n with
       | O => 10.0%float
       | S O => 10.25%float
       | _ => 10.5%float
       end;
     raises := fun _ => false;
     opengl_width := 1920;
     opengl_height := 1080;
     new_tkwin := fun _ _ => {| winx := 10; winy := 20; winfo_pointerxy := (5, 6) |};
     new_mouse_position := (0, 0);
     tan := fun x => x |}.

(** The same, except that every [unload_opengl] raises. *)
Definition unload_faults : Externals :=
  {| clock := clock quiet;
     raises := fun c => match c with unload_opengl _ => true | _ => false end;
     opengl_width := 1920;
     opengl_height := 1080;
     new_tkwin := new_tkwin quiet;
     new_mouse_position := (0, 0);
     tan := tan quiet |}.

(** The same, except that every [repaint] raises. *)
Definition repaint_faults : Externals :=
  {| clock := clock quiet;
     raises := fun c => match c with repaint _ _ => true | _ => false end;
     opengl_width := 1920;
     opengl_height := 1080;
     new_tkwin := new_tkwin quiet;
     new_mouse_position := (0, 0);
     tan := tan quiet |}.

(** The same, except that every hook of sprite 2 raises. *)
Definition sprite_two_faults : Externals :=
  {| clock := clock quiet;
     raises := fun c => bool_decide (receiver c = 2%nat);
     opengl_width := 1920;
     opengl_height := 1080;
     new_tkwin := new_tkwin quiet;
     new_mouse_position := (0, 0);
     tan := tan quiet |}.

(** The state a computation leaves behind. *)
Definition after {A} (m : M A) (st : Display * World) : Display * World :=
  (m st.1 st.2).1.

(** [Display(None)] as the first display of the process, as a literal. *)
Definition blank (self : nat) : Display :=
  {| ident := self; tkwin := None; sprites := SList [];
     sprites_to_load := ∅; sprites_to_unload := ∅;
     max_width := 1920; max_height := 1080;
     internal_loop := false; external_loop := false; is_running := true;
     time := None; frames_per_second := None; mouse := None;
     geometry := None |}.

Definition fresh : Display * World :=
  (blank 1, record [Log LInfo] (set_INSTANCE (Some 1%nat) initial_world)).

(** Sprites 1 and 2 added and loaded by a first [loop_running], then sprite
    1 marked for removal. *)
Definition two_active : Display * World :=
  after (loop_running quiet) (after (add_sprites [1; 2]%nat) fresh).

Definition one_removed : Display * World :=
  after (remove_sprites [1%nat]) two_active.

(** Sprite 9 marked for removal on the same display, which never had it. *)
Definition never_added : Display * World :=
  after (remove_sprites [9%nat]) two_active.

(** Sprite 1 added before each of two [loop_running] calls, so that it
    stands twice in the active list, then marked for removal. *)
Definition added_twice : Display * World :=
  after (remove_sprites [1%nat])
    (after (loop_running quiet)
       (after (add_sprites [1%nat])
          (after (loop_running quiet) (after (add_sprites [1%nat]) fresh)))).

(** The same state in a process that has set [RAISE_EXCEPTIONS = False]. *)
Definition swallowing (w : World) : World :=
  {| INSTANCE := INSTANCE w;
     ALLOW_MULTIPLE_DISPLAYS := ALLOW_MULTIPLE_DISPLAYS w;
     RAISE_EXCEPTIONS := false; ticks := ticks w; trace := trace w |}.

(** The first display destroyed, a second one constructed after it. *)
Definition first_destroyed : Display * World := after destroy fresh.

Definition second_built : World := (__init__ quiet 2 None first_destroyed.2).1.

(** A started display whose caller has set [frames_per_second = 4.0]. *)
Definition paced : Display :=
  {| ident := 1; tkwin := None; sprites := SList [];
     sprites_to_load := ∅; sprites_to_unload := ∅;
     max_width := 1920; max_height := 1080;
     internal_loop := false; external_loop := true; is_running := true;
     time := Some 10.5%float; frames_per_second := Some 4.0%float;
     mouse := None; geometry := None |}.

(** A display made by [create] with every argument at its default, and the
    object a constructor call returned. *)
Definition created : World * outcome Display :=
  create quiet 7 true None None None None None None DEFAULT_ASPECT
    DEFAULT_DEPTH None false false None initial_world.

Definition the_display (r : World * outcome Display) : Display :=
  match r.2 with
  | Ret d => d
  | Raise _ => blank 0
  end.

(** ** More on traces *)

(** How many tracebacks were logged. *)
Definition logged_errors (evs : list event) : nat :=
  length (omap (fun ev => match ev with Log LError => Some tt | _ => None end) evs).

(** The sprites a display knows: active, waiting to be loaded, or waiting to
    be unloaded. *)
Definition known (d : Display) : gset nat :=
  list_to_set (items (sprites d)) ∪ sprites_to_load d ∪ sprites_to_unload d.

(** The events of one guarded pass with hook [f] over the sprites [l]. *)
Definition pass_event (f : nat -> call) (l : list nat) (ev : event) : Prop :=
  ev = Log LError \/ exists s, s ∈ l /\ ev = Hook (f s).

(** What one [loop_running] on the display [d], with [t] the first clock
    reading of the call, may send out: log lines, the OpenGL and release
    calls, a sleep of positive length, a [repaint] at [t] on an active
    sprite, a load of a pending sprite, an unload of a marked one. *)
Definition expected (d : Display) (t : float) (ev : event) : Prop :=
  match ev with
  | Sleep delta => (0 <? delta)%float = true
  | Hook (repaint s t') => s ∈ items (sprites d) /\ t' = t
  | Hook (load_opengl s) => s ∈ sprites_to_load d
  | Hook (unload_opengl s) => s ∈ sprites_to_unload d
  | _ => True
  end.

(** What [self.sprites] is after the begin phase. *)
Definition grown (d : Display) : sprite_seq :=
  match sprites d with
  | SList l => SList (l ++ elements (sprites_to_load d))
  | SGen r => SGen r
  end.

(** An event the pacing may send out: a sleep of positive length. *)
Definition positive_sleep (ev : event) : Prop :=
  match ev with
  | Sleep delta => (0 <? delta)%float = true
  | _ => False
  end.

(** [n] end phases in a row. *)
Fixpoint end_phases (E : Externals) (n : nat) : M unit :=
  match n with
  | O => ret tt
  | S n' => bind (_loop_end E) (fun _ => end_phases E n')
  end.

(** The deadline after [n] paced frames: [n] float additions of the frame
    interval. *)
Fixpoint deadline_after (n : nat) (fps t0 : float) : float :=
  match n with
  | O => t0
  | S n' => (deadline_after n' fps t0 + 1 / fps)%float
  end.






(** ** Bookkeeping on records *)

Lemma set_sprites_same d : set_sprites (sprites d) d = d.
Proof. by destruct d. Qed.

Lemma set_sprites_twice q q' d : set_sprites q (set_sprites q' d) = set_sprites q d.
Proof. done. Qed.

Lemma record_nil w : record [] w = w.
Proof. destruct w. unfold record. simpl. by rewrite app_nil_r. Qed.

Lemma record_record evs evs' w : record evs' (record evs w) = record (evs ++ evs') w.
Proof. unfold record. simpl. by rewrite app_assoc. Qed.

Lemma calls_of_app evs evs' : calls_of (evs ++ evs') = calls_of evs ++ calls_of evs'.
Proof. apply omap_app. Qed.

Lemma received_app s evs evs' :
  received s (evs ++ evs') = received s evs ++ received s evs'.
Proof. unfold received. by rewrite calls_of_app, filter_app. Qed.



Lemma filter_eq_absent (s : nat) (l : list nat) :
  s ∉ l -> filter (fun x => x = s) l = [].
Proof.
  induction l as [|a l IH]; [done|].
  intros Hs. apply not_elem_of_cons in Hs as [Hne Hs].
  rewrite filter_cons, decide_False by done. by apply IH.
Qed.

Lemma filter_eq_NoDup (s : nat) (l : list nat) :
  NoDup l -> s ∈ l -> filter (fun x => x = s) l = [s].
Proof.
  induction 1 as [|a l Hnotin Hnd IH]; intros Hin.
  - by apply elem_of_nil in Hin.
  - rewrite filter_cons. apply elem_of_cons in Hin as [->|Hin].
    + rewrite decide_True by done. f_equal. by apply filter_eq_absent.
    + rewrite decide_False by (intros ->; done). by apply IH.
Qed.

Lemma filter_eq_filter (s : nat) (P : nat -> Prop) `{!∀ x, Decision (P x)}
    (l : list nat) :
  P s -> filter (fun x => x = s) (filter P l) = filter (fun x => x = s) l.
Proof.
  intros HP. induction l as [|a l IH]; [done|].
  rewrite !filter_cons. destruct (decide (P a)) as [Ha|Ha].
  - rewrite filter_cons. case_decide; by rewrite IH.
  - rewrite IH. rewrite decide_False; [done|]. by intros ->.
Qed.

Lemma received_map_repaint s t (l : list nat) :
  filter (fun c => receiver c = s) (map (fun x => repaint x t) l)
  = map (fun x => repaint x t) (filter (fun x => x = s) l).
Proof.
  induction l as [|a l IH]; [done|].
  simpl map. rewrite !filter_cons. simpl receiver.
  case_decide; simpl; by rewrite IH.
Qed.

Lemma received_map_unload s (l : list nat) :
  filter (fun c => receiver c = s) (map unload_opengl l)
  = map unload_opengl (filter (fun x => x = s) l).
Proof.
  induction l as [|a l IH]; [done|].
  simpl map. rewrite !filter_cons. simpl receiver.
  case_decide; simpl; by rewrite IH.
Qed.

(** ** What the loops do to the state and the trace *)

Section Loops.

Variable E : Externals.

(** The guarded call of [_for_each_sprite], case by case. *)
Lemma guarded_run f s d w :
  guarded E f s d w =
    if raises E (f s) then
      (d, record [Hook (f s); Log LError] w,
       if RAISE_EXCEPTIONS w then Raise (HookError (f s)) else Ret tt)
    else (d, record [Hook (f s)] w, Ret tt).
Proof.
  unfold guarded, try_except, invoke, bind, emit, update_world, get_world,
    raise, ret.
  destruct (raises E (f s)); [|done].
  rewrite record_record. simpl. by destruct (RAISE_EXCEPTIONS w).
Qed.

Ltac hook_log :=
  repeat (apply Forall_cons; split; [first [by left | right; by eexists]|]);
  apply Forall_nil_2.

(** [_for_each_sprite]'s loop touches only [self.sprites] (when it runs off
    the generator) and the trace; if it returns, every item got its call, in
    order; it returns whenever faults are swallowed or absent; and all it
    can raise is what a hook raised. *)
Lemma for_in_guarded f c l : forall d w, exists q evs o,
  for_in c l (guarded E f) d w = (set_sprites q d, record evs w, o)
  /\ (c = false -> q = sprites d)
  /\ Forall (hook_or_error_log f) evs
  /\ (o = Ret tt -> calls_of evs = map f l)
  /\ ((RAISE_EXCEPTIONS w = false \/ forall s, s ∈ l -> raises E (f s) = false)
      -> o = Ret tt)
  /\ (forall e, o = Raise e ->
      RAISE_EXCEPTIONS w = true /\ exists s, s ∈ l /\ e = HookError (f s)).
Proof.
  induction l as [|s l IH]; intros d w.
  - exists (sprites d), [], (Ret tt). simpl.
    rewrite set_sprites_same, record_nil. unfold ret. by split_and!.
  - set (d1 := if c then set_sprites (SGen l) d else d).
    assert (Hd1 : forall q, set_sprites q d1 = set_sprites q d)
      by (intros q; unfold d1; by destruct c).
    assert (Hc : c = false -> sprites d1 = sprites d)
      by (intros ->; done).
    assert (Hrun : for_in c (s :: l) (guarded E f) d w =
              bind (guarded E f s) (fun _ => for_in c l (guarded E f)) d1 w)
      by (unfold d1; simpl; by destruct c).
    rewrite Hrun. unfold bind. rewrite guarded_run.
    destruct (raises E (f s)) eqn:Hr.
    + destruct (RAISE_EXCEPTIONS w) eqn:Hx.
      * exists (sprites d1), [Hook (f s); Log LError], (Raise (HookError (f s))).
        rewrite <- Hd1, set_sprites_same.
        split_and!; try done.
        -- hook_log.
        -- intros [|Hno]; [done|]. rewrite Hno in Hr; [done|]. by left.
        -- intros e [= <-]. split; [done|]. exists s. split; [by left|done].
      * destruct (IH d1 (record [Hook (f s); Log LError] w))
          as (q & evs & o & Heq & Hq & Hev & Hret & Hok & Hraise).
        exists q, ([Hook (f s); Log LError] ++ evs), o.
        rewrite Heq, Hd1, record_record.
        split_and!; try done.
        -- intros Hcf. rewrite Hq by done. by apply Hc.
        -- apply Forall_app. split; [hook_log|done].
        -- intros Ho. rewrite calls_of_app, Hret by done. done.
        -- intros _. apply Hok. by left.
        -- intros e He. apply Hraise in He as [He _]. simpl in He. congruence.
    + destruct (IH d1 (record [Hook (f s)] w))
        as (q & evs & o & Heq & Hq & Hev & Hret & Hok & Hraise).
      exists q, ([Hook (f s)] ++ evs), o.
      rewrite Heq, Hd1, record_record.
      split_and!; try done.
      * intros Hcf. rewrite Hq by done. by apply Hc.
      * apply Forall_app. split; [hook_log|done].
      * intros Ho. rewrite calls_of_app, Hret by done. done.
      * intros [Hx|Hno]; apply Hok; [by left|].
        right. intros s' Hs'. apply Hno. by right.
      * intros e He. apply Hraise in He as [? (s' & Hs' & ->)].
        split; [done|]. exists s'. split; [by right|done].
Qed.

(** The unload loop calls the hooks bare: nothing is logged, and the first
    hook that raises ends it. *)
Lemma unload_all_run l : forall d w, exists evs o,
  unload_all E l d w = (d, record evs w, o)
  /\ (o = Ret tt -> calls_of evs = map unload_opengl l)
  /\ ((forall s, s ∈ l -> raises E (unload_opengl s) = false) -> o = Ret tt)
  /\ (forall e, o = Raise e -> exists s, s ∈ l /\ e = HookError (unload_opengl s)).
Proof.
  induction l as [|s l IH]; intros d w.
  - exists [], (Ret tt). simpl. rewrite record_nil. unfold ret. by split_and!.
  - simpl. unfold bind at 1. unfold invoke, bind, emit, update_world, raise, ret.
    destruct (raises E (unload_opengl s)) eqn:Hr.
    + exists [Hook (unload_opengl s)], (Raise (HookError (unload_opengl s))).
      split_and!; try done.
      * intros Hno. rewrite Hno in Hr; [done|]. by left.
      * intros e [= <-]. exists s. split; [by left|done].
    + destruct (IH d (record [Hook (unload_opengl s)] w))
        as (evs & o & Heq & Hret & Hok & Hraise).
      exists ([Hook (unload_opengl s)] ++ evs), o.
      rewrite Heq, record_record. split_and!; try done.
      * intros Ho. rewrite calls_of_app, Hret by done. done.
      * intros Hno. apply Hok. intros s' Hs'. apply Hno. by right.
      * intros e He. apply Hraise in He as (s' & Hs' & ->).
        exists s'. split; [by right|done].
Qed.

Lemma for_each_sprite_self f d w :
  _for_each_sprite E f None d w
  = for_in (draining (sprites d)) (items (sprites d)) (guarded E f) d w.
Proof. unfold _for_each_sprite, bind, get_self. by destruct (sprites d). Qed.

Lemma loop_end_commit_run d w :
  _loop_end_commit d w
  = (set_sprites (committed d) (set_sprites_to_unload ∅ d), w,
     Ret (sprites_to_unload d)).
Proof.
  unfold _loop_end_commit, committed, bind, get_self, update, ret.
  destruct (decide (sprites_to_unload d = ∅)); [|done].
  simpl. by destruct d.
Qed.

(** The end phase up to the pacing: only [self.sprites], the pending-unload
    set, the clock and the trace change; when it returns, the hook calls made
    are one [repaint] per item of the committed sequence, then one
    [unload_opengl] per swapped-out sprite. *)
Lemma loop_end_frame_run d w : exists q evs o,
  _loop_end_frame E d w
  = (set_sprites q (set_sprites_to_unload ∅ d), record evs (tick w), o)
  /\ (o = Ret tt ->
      calls_of evs
      = map (fun s => repaint s (clock E (ticks w))) (items (committed d))
        ++ map unload_opengl (elements (sprites_to_unload d)))
  /\ (forall e, o = Raise e -> exists c, e = HookError c).
Proof.
  unfold _loop_end_frame. unfold bind at 1. rewrite loop_end_commit_run.
  unfold bind at 1. unfold time_time. unfold bind at 1.
  rewrite for_each_sprite_self.
  set (d1 := set_sprites (committed d) (set_sprites_to_unload ∅ d)).
  destruct (for_in_guarded (fun s => repaint s (clock E (ticks w)))
              (draining (sprites d1)) (items (sprites d1)) d1 (tick w))
    as (q & evs & o & Heq & _ & _ & Hret & _ & Hraise).
  rewrite Heq. destruct o as [[]|e].
  - unfold bind, emit, update_world.
    destruct (unload_all_run (elements (sprites_to_unload d))
                (set_sprites q d1) (record [swapBuffers] (record evs (tick w))))
      as (evs' & o' & Heq' & Hret' & _ & Hraise').
    rewrite Heq'. exists q, (evs ++ [swapBuffers] ++ evs'), o'.
    split; [by rewrite !record_record|]. split.
    + intros Ho'. rewrite !calls_of_app, Hret, Hret' by done. done.
    + intros e He. apply Hraise' in He as (s & _ & ->). by eexists.
  - exists q, evs, (Raise e). split; [done|]. split; [done|].
    intros e' [= <-]. destruct (Hraise e eq_refl) as (_ & s & _ & ->). by eexists.
Qed.

(** The pacing makes no hook call and can only fail on a missing [time]. *)
Lemma loop_end_pacing_run d w : exists d' w' evs o,
  _loop_end_pacing E d w = (d', w', o)
  /\ trace w' = trace w ++ evs
  /\ calls_of evs = []
  /\ (forall e, o = Raise e -> e = AttributeError).
Proof.
  unfold _loop_end_pacing, bind, get_self.
  destruct (frames_per_second d) as [fps|].
  2: { exists d, w, [], (Ret tt). by rewrite app_nil_r. }
  destruct (truthy fps).
  2: { exists d, w, [], (Ret tt). by rewrite app_nil_r. }
  destruct (time d) as [t0|].
  2: { exists d, w, [], (Raise AttributeError). rewrite app_nil_r.
       split_and!; try done. by intros e [= <-]. }
  unfold update, time_time, emit, update_world, ret. simpl.
  destruct (PrimFloat.ltb _ _); eexists _, _, _, (Ret tt).
  - split; [done|]. simpl. by split_and!.
  - split; [done|]. simpl. rewrite app_nil_r. by split_and!.
Qed.

(** [destroy] in one step: it cannot raise, stops the display, attempts each
    release and resets [Display.INSTANCE]. *)
Lemma destroy_run d w :
  destroy d w
  = (set_is_running false d, set_INSTANCE None (record (releases d) w), Ret tt).
Proof.
  unfold destroy, releases, stop, bind, update, emit, update_world, get_self, ret.
  simpl. destruct (mouse d) as [[m|]|], (tkwin d) as [tk|]; simpl;
    rewrite ?record_record; done.
Qed.

(** The begin phase on a display whose [sprites] is still a list. *)
Lemma loop_begin_run d w l :
  sprites d = SList l ->
  exists evs o,
    _loop_begin E d w
    = (set_sprites (SList (l ++ elements (sprites_to_load d)))
         (set_sprites_to_load ∅ d),
       record (glClear :: evs) w, o)
    /\ Forall (hook_or_error_log load_opengl) evs
    /\ ((RAISE_EXCEPTIONS w = false
         \/ forall s, s ∈ sprites_to_load d -> raises E (load_opengl s) = false)
        -> o = Ret tt).
Proof.
  intros Hl. unfold _loop_begin, bind, emit, update_world, get_self, update.
  rewrite Hl. simpl. unfold _for_each_sprite.
  set (d1 := set_sprites _ _).
  destruct (for_in_guarded load_opengl false (elements (sprites_to_load d))
              d1 (record [glClear] w))
    as (q & evs & o & Heq & Hq & Hev & _ & Hok & _).
  rewrite Heq, (Hq eq_refl), set_sprites_same, record_record.
  exists evs, o. split; [done|]. split; [done|].
  intros [Hx|Hno]; apply Hok; [by left|right].
  intros s Hs. apply Hno. by apply elem_of_elements.
Qed.

(** All an end phase can raise. *)
Lemma loop_end_raises d w d' w' e :
  _loop_end E d w = (d', w', Raise e) ->
  e = AttributeError \/ exists c, e = HookError c.
Proof.
  unfold _loop_end, bind.
  destruct (loop_end_frame_run d w) as (q & evs & o & -> & _ & Hraise).
  destruct o as [[]|e'].
  - destruct (loop_end_pacing_run (set_sprites q (set_sprites_to_unload ∅ d))
                (record evs (tick w)))
      as (d2 & w2 & evs2 & o2 & -> & _ & _ & Hraise2).
    intros [= _ _ ->]. left. by apply Hraise2.
  - intros [= _ _ <-]. right. by apply Hraise.
Qed.

(** On a stopped display [loop_running] is one more end phase and a
    [destroy]. *)
Lemma loop_running_stopped d w :
  is_running d = false ->
  loop_running E d w
  = bind (_loop_end E) (fun _ => bind destroy (fun _ => ret false)) d w.
Proof.
  intros Hs. unfold loop_running. unfold bind at 1. unfold get_self at 1.
  rewrite Hs. unfold bind at 1 4. unfold bind at 1.
  destruct (_loop_end E d w) as [[d2 w2] [[]|e]]; [|done].
  unfold bind. rewrite destroy_run. done.
Qed.

End Loops.

(** ** Properties of the frame loop *)

Section Properties.

Variable E : Externals.

(** C5.  With a frame rate set and the deadline [self.time] in place, an end
    phase whose repaint, swap and unload part returns goes on to set the
    deadline to [time + 1.0 / frames_per_second], whatever the clock says,
    reads the clock once more, sleeps for the difference exactly when it is
    positive, and returns. *)
Theorem pacing_integrates_deadline d w d1 w1 fps t0 :
  frames_per_second d = Some fps ->
  truthy fps = true ->
  time d = Some t0 ->
  _loop_end_frame E d w = (d1, w1, Ret tt) ->
  let deadline := (t0 + 1 / fps)%float in
  let delta := (deadline - clock E (ticks w1))%float in
  _loop_end E d w
  = (set_time (Some deadline) d1,
     record (if (0 <? delta)%float then [Sleep delta] else []) (tick w1),
     Ret tt).
Proof.
  intros Hfps Htruthy Htime Hframe deadline delta.
  unfold _loop_end, bind. rewrite Hframe.
  destruct (loop_end_frame_run E d w) as (q & evs & o & Heq & _ & _).
  rewrite Heq in Hframe. injection Hframe as <- <- ->.
  unfold _loop_end_pacing, bind, get_self. simpl.
  rewrite Hfps, Htruthy, Htime.
  unfold update, time_time, emit, update_world, ret. simpl.
  subst delta. simpl ticks.
  destruct (PrimFloat.ltb _ _); [done|]. by rewrite record_nil.
Qed.

(** C8.  The first [loop_running] on a running display that has not started
    a loop stores the clock reading in [self.time], sets [external_loop],
    and is from there the begin phase alone: one clock reading, a clear, and
    load calls with their error logs.  It returns [True] whenever the begin
    phase returns, which it does when no load hook raises or faults are
    swallowed. *)
Theorem first_loop_running_begins d w l :
  is_running d = true ->
  external_loop d = false ->
  internal_loop d = false ->
  sprites d = SList l ->
  let t := clock E (ticks w) in
  let d0 := set_external_loop true (set_time (Some t) d) in
  loop_running E d w
  = match _loop_begin E d0 (tick w) with
    | (d', w', Ret _) => (d', w', Ret true)
    | (d', w', Raise e) => (d', w', Raise e)
    end
  /\ exists d' w' o evs,
       loop_running E d w = (d', w', o)
       /\ time d' = Some t
       /\ external_loop d' = true
       /\ ticks w' = S (ticks w)
       /\ trace w' = trace w ++ glClear :: evs
       /\ Forall (hook_or_error_log load_opengl) evs
       /\ ((RAISE_EXCEPTIONS w = false
            \/ forall s, s ∈ sprites_to_load d -> raises E (load_opengl s) = false)
           -> o = Ret true).
Proof.
  intros Hrun Hext Hint Hl t d0.
  destruct (loop_begin_run E d0 (tick w) l) as (evs & o & Heq & Hev & Hok);
    [by rewrite <- Hl|].
  assert (Hstep : loop_running E d w
                  = (set_sprites (SList (l ++ elements (sprites_to_load d0)))
                       (set_sprites_to_load ∅ d0),
                     record (glClear :: evs) (tick w),
                     match o with Ret _ => Ret true | Raise e => Raise e end)).
  { unfold loop_running. unfold bind at 1. unfold get_self at 1.
    rewrite Hrun, Hint, Hext.
    unfold bind, ret, time_time, update, get_self. cbv beta iota.
    fold t. fold d0. rewrite Heq. destruct o as [[]|e]; [|done].
    simpl. by rewrite Hrun. }
  split.
  - rewrite Hstep, Heq. by destruct o as [[]|e].
  - eexists _, _, _, evs. split; [exact Hstep|].
    split_and!; try done.
    intros Hno. by rewrite Hok.
Qed.

(** C3, as the code has it.  After [destroy], [loop_running] raises no error
    of its own: it is one more end phase followed by [destroy] again.  It
    returns [False] with the display still stopped, unless that end phase
    lets a hook's exception or the pacing's [AttributeError] through. *)
Theorem loop_running_after_destroy d w :
  let '(d1, w1, _) := destroy d w in
  is_running d1 = false
  /\ loop_running E d1 w1
     = bind (_loop_end E) (fun _ => bind destroy (fun _ => ret false)) d1 w1
  /\ match loop_running E d1 w1 with
     | (d2, _, Ret b) => b = false /\ is_running d2 = false
     | (_, _, Raise e) => e = AttributeError \/ exists c, e = HookError c
     end.
Proof.
  rewrite destroy_run. split; [done|].
  split; [by apply loop_running_stopped|].
  rewrite loop_running_stopped by done. unfold bind.
  destruct (_loop_end E _ _) as [[d2 w2] [[]|e]] eqn:Hend.
  - by rewrite destroy_run.
  - by eapply loop_end_raises.
Qed.

(** C6, as the code has it.  [destroy] never raises and always leaves
    [Display.INSTANCE] empty, whichever display was current. *)
Theorem destroy_resets_instance d w :
  exists d' w',
    destroy d w = (d', w', Ret tt)
    /\ INSTANCE w' = None
    /\ is_running d' = false.
Proof. rewrite destroy_run. by eexists _, _. Qed.

(** C2, as the code has it.  While a display is current and
    [ALLOW_MULTIPLE_DISPLAYS] is off, the constructor of another one raises
    [AssertionError] before it does anything else: no warning is logged and
    it leaves [Display.INSTANCE] as it was. *)
Theorem second_display_asserts self tk w i :
  INSTANCE w = Some i ->
  ALLOW_MULTIPLE_DISPLAYS w = false ->
  __init__ E self tk w = (w, Raise AssertionError).
Proof. intros Hi Hallow. unfold __init__. by rewrite Hi, Hallow. Qed.

(** C9.  With [self.mouse] set to [None], [mouse_position] returns the tk
    window's pointer coordinates if there is a tk window and [(-1, -1)]
    otherwise; it does not raise and changes nothing. *)
Theorem mouse_position_without_mouse d w :
  mouse d = Some None ->
  mouse_position d w
  = (d, w,
     Ret match tkwin d with
         | Some tk => winfo_pointerxy tk
         | None => (-1, -1)
         end).
Proof.
  intros Hm. unfold mouse_position, bind, get_self. rewrite Hm.
  by destruct (tkwin d).
Qed.

(** C10.  The display [create] returns has the near and far planes it was
    given; a plane left as [None] is 0.5 (near) and 800.0 (far) for a 3D
    display, -1.0 and 500.0 otherwise. *)
Theorem create_clip_planes self is_3d x y w h near_ far_ aspect depth
    background tk mouse_ fps wd wd' d :
  create E self is_3d x y w h near_ far_ aspect depth background tk mouse_
    fps wd = (wd', Ret d) ->
  exists g,
    geometry d = Some g
    /\ near g = match near_ with
                | Some n => n
                | None => if is_3d then 0.5%float else (-1.0)%float
                end
    /\ far g = match far_ with
               | Some f => f
               | None => if is_3d then 800.0%float else 500.0%float
               end.
Proof.
  unfold create, __init__.
  destruct tk; [destruct (negb _); [done|]|];
    (destruct (INSTANCE _); [destruct (ALLOW_MULTIPLE_DISPLAYS _); [|done]|]);
    unfold bind, emit, update, update_world, math_tan, to_float, raise, ret;
    cbv beta iota;
    destruct mouse_, is_3d, background as [[[[r g] b] alpha]|];
    cbv beta iota;
    repeat match goal with
           | |- context [tan_fails ?a ?b] => destruct (tan_fails a b)
           | |- context [float_of_int ?z] => destruct (float_of_int z)
           | |- context [PrimFloat.eqb ?a ?b] => destruct (PrimFloat.eqb a b)
           end;
    intros [= <- <-]; eexists; (split; [reflexivity|]); split; reflexivity.
Qed.

End Properties.

(** ** Concrete runs *)

Example fresh_is_constructed :
  __init__ quiet 1 None initial_world = (fresh.2, Ret fresh.1).
Proof. reflexivity. Qed.

Example one_removed_state :
  sprites one_removed.1 = SList [2; 1]%nat
  /\ elements (sprites_to_unload one_removed.1) = [1%nat]
  /\ time one_removed.1 = Some 10.0%float
  /\ trace one_removed.2
     = [Log LInfo; glClear; Hook (load_opengl 2); Hook (load_opengl 1)].
Proof. vm_compute. done. Qed.

(** C1, at sprites [2; 1] active with sprite 1 marked for removal.  The
    commit rebinds [self.sprites] to a generator that yields sprite 1, the
    one to remove, and drops sprite 2; the end phase then repaints and
    unloads sprite 1 only and leaves the generator drained, and the next
    [loop_running] fails in its begin phase, a generator having no
    [extend]. *)
Theorem commit_keeps_the_removed :
  sprites (after _loop_end_commit one_removed).1 = SGen [1%nat]
  /\ (exists d' w',
        _loop_end quiet one_removed.1 one_removed.2 = (d', w', Ret tt)
        /\ sprites d' = SGen []
        /\ trace w'
           = trace one_removed.2
             ++ [Hook (repaint 1 10.25%float); swapBuffers;
                 Hook (unload_opengl 1)])
  /\ (loop_running quiet one_removed.1 one_removed.2).2 = Raise AttributeError.
Proof.
  split; [by vm_compute|]. split; [|by vm_compute].
  eexists _, _. split; [vm_compute; reflexivity|]. by vm_compute.
Qed.

(** C7, at the same state with [RAISE_EXCEPTIONS = False].  A raising
    [unload_opengl] escapes the end phase with no error logged, while a
    raising [repaint] in the same setting is logged and swallowed. *)
Theorem unload_fault_escapes_unlogged :
  (exists d' w',
     _loop_end unload_faults one_removed.1 (swallowing one_removed.2)
     = (d', w', Raise (HookError (unload_opengl 1)))
     /\ trace w'
        = trace one_removed.2
          ++ [Hook (repaint 1 10.25%float); swapBuffers; Hook (unload_opengl 1)])
  /\ (exists d' w',
        _loop_end repaint_faults one_removed.1 (swallowing one_removed.2)
        = (d', w', Ret tt)
        /\ trace w'
           = trace one_removed.2
             ++ [Hook (repaint 1 10.25%float); Log LError; swapBuffers;
                 Hook (unload_opengl 1)]).
Proof.
  split; eexists _, _; (split; [vm_compute; reflexivity|]); by vm_compute.
Qed.

(** C2 fails here: with display 1 current and the flag off, constructing
    display 2 does not return, so it is not made current either. *)
Lemma second_display_counterexample :
  INSTANCE fresh.2 = Some 1%nat
  /\ ALLOW_MULTIPLE_DISPLAYS fresh.2 = false
  /\ ~ (exists w' d',
          __init__ quiet 2 None fresh.2 = (w', Ret d')
          /\ INSTANCE w' = Some 2%nat).
Proof.
  split; [done|]. split; [done|].
  intros (w' & d' & Hinit & _). vm_compute in Hinit. discriminate Hinit.
Qed.

(** [second_display_asserts] at display 2 constructed while display 1 is
    current. *)
Lemma second_display_asserts_witness :
  __init__ quiet 2 None fresh.2 = (fresh.2, Raise AssertionError).
Proof.
  apply (second_display_asserts quiet 2 None fresh.2 1); reflexivity.
Defined.

(** C3 fails here: on the destroyed first display [loop_running] raises
    nothing and returns [False]. *)
Lemma use_after_destroy_counterexample :
  (loop_running quiet first_destroyed.1 first_destroyed.2).2 = Ret false.
Proof. by vm_compute. Qed.

(** C6 fails here: display 1 is destroyed, display 2 is built and is
    current, and a second [destroy] of display 1 empties
    [Display.INSTANCE]. *)
Lemma destroy_other_counterexample :
  ident first_destroyed.1 = 1%nat
  /\ INSTANCE second_built = Some 2%nat
  /\ INSTANCE (after destroy (first_destroyed.1, second_built)).2 = None.
Proof. by vm_compute. Qed.

(** [pacing_integrates_deadline] at 4 frames per second with the deadline
    at 10.5: the new deadline is 10.75, the clock reads 10.25 and the loop
    sleeps for 0.5. *)
Lemma pacing_witness :
  _loop_end quiet paced fresh.2
  = (set_time (Some 10.75%float) (after (_loop_end_frame quiet) (paced, fresh.2)).1,
     record [Sleep 0.5%float] (tick (after (_loop_end_frame quiet) (paced, fresh.2)).2),
     Ret tt).
Proof.
  apply (pacing_integrates_deadline quiet paced fresh.2
           (after (_loop_end_frame quiet) (paced, fresh.2)).1
           (after (_loop_end_frame quiet) (paced, fresh.2)).2
           4.0%float 10.5%float).
  - reflexivity.
  - reflexivity.
  - reflexivity.
  - vm_compute. reflexivity.
Defined.

(** [first_loop_running_begins] at the fresh display with two sprites
    pending: the call returns [True]. *)
Lemma first_loop_running_witness :
  (loop_running quiet (after (add_sprites [1; 2]%nat) fresh).1
     (after (add_sprites [1; 2]%nat) fresh).2).2 = Ret true.
Proof.
  destruct (first_loop_running_begins quiet
              (after (add_sprites [1; 2]%nat) fresh).1
              (after (add_sprites [1; 2]%nat) fresh).2 []
              eq_refl eq_refl eq_refl eq_refl)
    as (_ & d' & w' & o & evs & Heq & _ & _ & _ & _ & _ & Hok).
  rewrite Heq. simpl. apply Hok. right. reflexivity.
Defined.

(** [mouse_position_without_mouse] at the display [create] returns by
    default: no mouse, no tk window. *)
Lemma mouse_position_witness :
  mouse_position (the_display created) created.1
  = (the_display created, created.1, Ret (-1, -1)).
Proof.
  apply (mouse_position_without_mouse (the_display created) created.1).
  reflexivity.
Defined.

(** [create_clip_planes] at [create()] with every argument at its default. *)
Lemma create_clip_planes_witness :
  exists g,
    geometry (the_display created) = Some g
    /\ near g = 0.5%float
    /\ far g = 800.0%float.
Proof.
  apply (create_clip_planes quiet 7 true None None None None None None
           DEFAULT_ASPECT DEFAULT_DEPTH None false false None initial_world
           created.1 (the_display created)).
  vm_compute. reflexivity.
Defined.

(** ** Further properties: the loops in full *)

Section Passes.

Variable E : Externals.

Lemma pass_event_mono f l l' ev :
  l ⊆ l' -> pass_event f l ev -> pass_event f l' ev.
Proof.
  intros Hsub [->|(s & Hs & ->)]; [by left|right].
  exists s. split; [by apply Hsub|done].
Qed.

Ltac pass_log :=
  repeat (apply Forall_cons; split; [assumption|]); apply Forall_nil_2.

(** One guarded pass, whatever its outcome: the events are calls on items of
    the list and error logs; a list is left alone, a generator is left with
    what it has not yielded, which is nothing once the pass returns. *)
Lemma for_in_pass f c l : forall d w, exists q evs o,
  for_in c l (guarded E f) d w = (set_sprites q d, record evs w, o)
  /\ Forall (pass_event f l) evs
  /\ (c = false -> q = sprites d)
  /\ (l = [] -> q = sprites d)
  /\ (c = true -> l <> [] -> exists r, q = SGen r /\ (o = Ret tt -> r = []))
  /\ (o = Ret tt -> calls_of evs = map f l)
  /\ (o = Ret tt ->
      logged_errors evs = length (filter (fun s => raises E (f s) = true) l)).
Proof.
  induction l as [|s l IH]; intros d w.
  - exists (sprites d), [], (Ret tt). simpl.
    rewrite set_sprites_same, record_nil. unfold ret. by split_and!.
  - set (d1 := if c then set_sprites (SGen l) d else d).
    assert (Hd1 : forall q, set_sprites q d1 = set_sprites q d)
      by (intros q; unfold d1; by destruct c).
    assert (Hrun : for_in c (s :: l) (guarded E f) d w =
              bind (guarded E f s) (fun _ => for_in c l (guarded E f)) d1 w)
      by (unfold d1; simpl; by destruct c).
    rewrite Hrun. unfold bind. rewrite guarded_run.
    assert (Hhook : pass_event f (s :: l) (Hook (f s)))
      by (right; exists s; split; [by left|done]).
    assert (Hlog : pass_event f (s :: l) (Log LError)) by by left.
    assert (Hsub : l ⊆ s :: l) by (intros x Hx; by right).
    destruct (raises E (f s)) eqn:Hr; [destruct (RAISE_EXCEPTIONS w) eqn:Hx|].
    + exists (sprites d1), [Hook (f s); Log LError], (Raise (HookError (f s))).
      rewrite <- Hd1, set_sprites_same.
      split_and!; try done.
      * pass_log.
      * intros ->. done.
      * intros -> _. by eexists.
    + destruct (IH d1 (record [Hook (f s); Log LError] w))
        as (q & evs & o & Heq & Hev & Hlist & Hnil & Hgen & Hcalls & Hlogs).
      exists q, ([Hook (f s); Log LError] ++ evs), o.
      rewrite Heq, Hd1, record_record.
      split_and!; try done.
      * apply Forall_app. split; [pass_log|].
        eapply Forall_impl; [exact Hev|]. intros ev. by apply pass_event_mono.
      * intros ->. by rewrite Hlist.
      * intros -> _. destruct l as [|s' l'].
        -- exists []. by rewrite Hnil.
        -- destruct (Hgen eq_refl) as (r & -> & Hr'); [done|]. by exists r.
      * intros Ho. by rewrite calls_of_app, Hcalls.
      * intros Ho. rewrite filter_cons, decide_True by done.
        unfold logged_errors in *. rewrite omap_app, length_app, Hlogs by done.
        done.
    + destruct (IH d1 (record [Hook (f s)] w))
        as (q & evs & o & Heq & Hev & Hlist & Hnil & Hgen & Hcalls & Hlogs).
      exists q, ([Hook (f s)] ++ evs), o.
      rewrite Heq, Hd1, record_record.
      split_and!; try done.
      * apply Forall_app. split; [pass_log|].
        eapply Forall_impl; [exact Hev|]. intros ev. by apply pass_event_mono.
      * intros ->. by rewrite Hlist.
      * intros -> _. destruct l as [|s' l'].
        -- exists []. by rewrite Hnil.
        -- destruct (Hgen eq_refl) as (r & -> & Hr'); [done|]. by exists r.
      * intros Ho. by rewrite calls_of_app, Hcalls.
      * intros Ho. rewrite filter_cons, decide_False by (by rewrite Hr).
        unfold logged_errors in *. rewrite omap_app, length_app, Hlogs by done.
        done.
Qed.

Lemma set_time_same d : set_time (time d) d = d.
Proof. by destruct d. Qed.

(** The unload loop, whatever its outcome. *)
Lemma unload_all_events l : forall d w, exists evs o,
  unload_all E l d w = (d, record evs w, o)
  /\ Forall (fun ev => exists s, s ∈ l /\ ev = Hook (unload_opengl s)) evs
  /\ (o = Ret tt -> calls_of evs = map unload_opengl l)
  /\ (forall e, o = Raise e -> exists c, e = HookError c).
Proof.
  induction l as [|s l IH]; intros d w.
  - exists [], (Ret tt). simpl. rewrite record_nil. unfold ret. by split_and!.
  - simpl. unfold bind at 1. unfold invoke, bind, emit, update_world, raise, ret.
    assert (Hs : exists s', s' ∈ s :: l /\ Hook (unload_opengl s) = Hook (unload_opengl s'))
      by (exists s; split; [by left|done]).
    destruct (raises E (unload_opengl s)).
    + exists [Hook (unload_opengl s)], (Raise (HookError (unload_opengl s))).
      split_and!; try done.
      * pass_log.
      * intros e [= <-]. by eexists.
    + destruct (IH d (record [Hook (unload_opengl s)] w))
        as (evs & o & Heq & Hev & Hcalls & Hraise).
      exists ([Hook (unload_opengl s)] ++ evs), o.
      rewrite Heq, record_record. split_and!; try done.
      * apply Forall_app. split; [pass_log|].
        eapply Forall_impl; [exact Hev|]. intros ev (s' & Hs' & ->).
        exists s'. split; [by right|done].
      * intros Ho. by rewrite calls_of_app, Hcalls.
Qed.

(** The end phase up to the pacing, whatever its outcome. *)
Lemma loop_end_frame_full d w : exists q evs o,
  _loop_end_frame E d w
  = (set_sprites q (set_sprites_to_unload ∅ d), record evs (tick w), o)
  /\ Forall (expected d (clock E (ticks w))) evs
  /\ (draining (committed d) = false -> q = committed d)
  /\ (draining (committed d) = true ->
      draining q = true /\ (o = Ret tt -> q = SGen []))
  /\ (o = Ret tt ->
      calls_of evs
      = map (fun s => repaint s (clock E (ticks w))) (items (committed d))
        ++ map unload_opengl (elements (sprites_to_unload d)))
  /\ (forall e, o = Raise e -> exists c, e = HookError c).
Proof.
  unfold _loop_end_frame. unfold bind at 1. rewrite loop_end_commit_run.
  unfold bind at 1. unfold time_time. unfold bind at 1.
  rewrite for_each_sprite_self.
  set (t := clock E (ticks w)).
  set (d1 := set_sprites (committed d) (set_sprites_to_unload ∅ d)).
  assert (Hsub : items (committed d) ⊆ items (sprites d)).
  { unfold committed. case_decide; [done|]. simpl. intros x Hx.
    by apply list_elem_of_filter in Hx as [_ ?]. }
  destruct (for_in_pass (fun s => repaint s t)
              (draining (sprites d1)) (items (sprites d1)) d1 (tick w))
    as (q & evs & o & Heq & Hev & Hlist & Hnil & Hgen & Hcalls & _).
  rewrite Heq. simpl sprites in *.
  assert (Hev' : Forall (expected d t) evs).
  { eapply Forall_impl; [exact Hev|]. intros ev [->|(s & Hs & ->)]; [done|].
    simpl. split; [by apply Hsub|done]. }
  assert (Hq : draining (committed d) = true ->
               draining q = true /\ (o = Ret tt -> q = SGen [])).
  { intros Hdr. destruct (committed d) as [l|r] eqn:Hc; [done|].
    simpl in *. destruct r as [|x r].
    - rewrite Hnil by done. done.
    - destruct (Hgen eq_refl) as (r' & -> & Hr'); [done|].
      split; [done|]. intros Ho. by rewrite Hr'. }
  destruct o as [[]|e].
  - unfold bind, emit, update_world.
    destruct (unload_all_events (elements (sprites_to_unload d))
                (set_sprites q d1) (record [swapBuffers] (record evs (tick w))))
      as (evs' & o' & Heq' & Hev'' & Hcalls' & Hraise').
    rewrite Heq'. exists q, (evs ++ [swapBuffers] ++ evs'), o'.
    split; [by rewrite !record_record|]. split_and!; try done.
    + apply Forall_app. split; [done|]. apply Forall_cons. split; [done|].
      eapply Forall_impl; [exact Hev''|]. intros ev (s & Hs & ->).
      simpl. by apply elem_of_elements.
    + intros Hdr. destruct (Hq Hdr) as [Hdq Hr0]. split; [done|].
      intros _. by apply Hr0.
    + intros Ho'. by rewrite !calls_of_app, Hcalls, Hcalls'.
  - exists q, evs, (Raise e). split; [done|]. split_and!; try done.
    intros e' [= <-].
    unfold for_in in Heq. clear -Heq Hev.
    destruct (for_in_guarded E (fun s => repaint s t)
                (draining (committed d)) (items (committed d)) d1 (tick w))
      as (q2 & evs2 & o2 & Heq2 & _ & _ & _ & _ & Hraise).
    fold for_in in Heq. subst d1. simpl in Heq2. rewrite Heq in Heq2.
    injection Heq2 as _ _ <-.
    destruct (Hraise e eq_refl) as (_ & s & _ & ->). by eexists.
Qed.

(** The pacing, whatever its outcome: it changes [self.time] at most, reads
    the clock at most once, sends out at most a sleep of positive length,
    and fails only for want of [self.time]. *)
Lemma loop_end_pacing_full d w : exists tm w0 evs o,
  _loop_end_pacing E d w = (set_time tm d, record evs w0, o)
  /\ (w0 = w \/ w0 = tick w)
  /\ Forall positive_sleep evs
  /\ (forall e, o = Raise e -> e = AttributeError).
Proof.
  unfold _loop_end_pacing, bind, get_self.
  assert (Hidle : exists tm w0 evs o,
             (d, w, Ret tt) = (set_time tm d, record evs w0, o)
             /\ (w0 = w \/ w0 = tick w)
             /\ Forall positive_sleep evs
             /\ (forall e, o = Raise e -> e = AttributeError)).
  { exists (time d), w, [], (Ret tt).
    rewrite set_time_same, record_nil. split_and!; try done. by left. }
  destruct (frames_per_second d) as [fps|]; [|exact Hidle].
  destruct (truthy fps); [|exact Hidle].
  destruct (time d) as [t0|] eqn:Ht.
  2: { exists None, w, [], (Raise AttributeError).
       rewrite <- Ht, set_time_same, record_nil. split_and!; try done.
       - by left.
       - by intros e [= <-]. }
  unfold update, time_time, emit, update_world, ret. simpl.
  destruct (PrimFloat.ltb _ _) eqn:Hpos.
  - eexists _, (tick w), [Sleep _], (Ret tt). split; [done|].
    split_and!; try done; [by right|]. apply Forall_cons. split; [exact Hpos|done].
  - eexists _, (tick w), [], (Ret tt). rewrite record_nil. split; [done|].
    split_and!; try done. by right.
Qed.

(** The begin phase, whatever its outcome. *)
Lemma loop_begin_full d w : exists evs o,
  _loop_begin E d w
  = (set_sprites (grown d) (set_sprites_to_load ∅ d), record (glClear :: evs) w, o)
  /\ Forall (pass_event load_opengl (elements (sprites_to_load d))) evs
  /\ (draining (sprites d) = true -> o = Raise AttributeError /\ evs = [])
  /\ (draining (sprites d) = false ->
      (o = Ret tt -> calls_of evs = map load_opengl (elements (sprites_to_load d)))
      /\ (forall e, o = Raise e -> exists c, e = HookError c)
      /\ ((RAISE_EXCEPTIONS w = false
           \/ forall s, s ∈ sprites_to_load d -> raises E (load_opengl s) = false)
          -> o = Ret tt)).
Proof.
  unfold _loop_begin, grown, bind, emit, update_world, get_self, update.
  destruct (sprites d) as [l|r] eqn:Hl; simpl.
  - unfold _for_each_sprite.
    set (d1 := set_sprites _ _).
    destruct (for_in_pass load_opengl false (elements (sprites_to_load d))
                d1 (record [glClear] w))
      as (q & evs & o & Heq & Hev & Hq & _ & _ & Hcalls & _).
    destruct (for_in_guarded E load_opengl false (elements (sprites_to_load d))
                d1 (record [glClear] w))
      as (q2 & evs2 & o2 & Heq2 & _ & _ & _ & Hok & Hraise).
    rewrite Heq in Heq2. injection Heq2 as _ _ <-.
    rewrite Heq, (Hq eq_refl), set_sprites_same, record_record.
    exists evs, o. split; [done|]. split_and!; try done.
    intros _. split_and!; try done.
    + intros e He. destruct (Hraise e He) as (_ & s & _ & ->). by eexists.
    + intros [Hx|Hno]; apply Hok; [by left|right].
      intros s Hs. apply Hno. by apply elem_of_elements.
  - unfold raise. exists [], (Raise AttributeError). split; [|by split_and!].
    f_equal. f_equal. unfold set_sprites, set_sprites_to_load. simpl.
    by rewrite Hl.
Qed.

Lemma positive_sleep_calls evs : Forall positive_sleep evs -> calls_of evs = [].
Proof.
  induction 1 as [|ev evs Hev _ IH]; [done|].
  by destruct ev.
Qed.

Lemma positive_sleep_expected d t evs :
  Forall positive_sleep evs -> Forall (expected d t) evs.
Proof.
  intros H. eapply Forall_impl; [exact H|]. intros ev. by destruct ev.
Qed.

(** The whole end phase, whatever its outcome. *)
Lemma loop_end_full d w : exists q tm w0 evs o,
  _loop_end E d w
  = (set_time tm (set_sprites q (set_sprites_to_unload ∅ d)), w0, o)
  /\ trace w0 = trace w ++ evs
  /\ INSTANCE w0 = INSTANCE w
  /\ RAISE_EXCEPTIONS w0 = RAISE_EXCEPTIONS w
  /\ Forall (expected d (clock E (ticks w))) evs
  /\ (draining (committed d) = false -> q = committed d)
  /\ (draining (committed d) = true ->
      draining q = true /\ (o = Ret tt -> q = SGen []))
  /\ (o = Ret tt ->
      calls_of evs
      = map (fun s => repaint s (clock E (ticks w))) (items (committed d))
        ++ map unload_opengl (elements (sprites_to_unload d)))
  /\ (forall e, o = Raise e -> e = AttributeError \/ exists c, e = HookError c).
Proof.
  unfold _loop_end, bind.
  destruct (loop_end_frame_full d w)
    as (q & evs & o & -> & Hev & Hlist & Hgen & Hcalls & Hraise).
  destruct o as [[]|e].
  - destruct (loop_end_pacing_full (set_sprites q (set_sprites_to_unload ∅ d))
                (record evs (tick w)))
      as (tm & w0 & evs2 & o2 & -> & Hw0 & Hsleep & Hraise2).
    exists q, tm, (record evs2 w0), (evs ++ evs2), o2.
    split; [done|].
    assert (Hw : trace w0 = trace w ++ evs /\ INSTANCE w0 = INSTANCE w
                 /\ RAISE_EXCEPTIONS w0 = RAISE_EXCEPTIONS w)
      by (by destruct Hw0 as [->| ->]).
    destruct Hw as (Htr & Hi & Hx). simpl. rewrite Htr.
    split_and!; try done.
    + by rewrite app_assoc.
    + apply Forall_app. split; [done|]. by apply positive_sleep_expected.
    + intros Hdr. destruct (Hgen Hdr) as [Hdq Hr]. split; [done|].
      intros _. by apply Hr.
    + intros _. rewrite calls_of_app, Hcalls, (positive_sleep_calls evs2) by done.
      by rewrite app_nil_r.
    + intros e He. left. by apply Hraise2.
  - exists q, (time (set_sprites q (set_sprites_to_unload ∅ d))),
      (record evs (tick w)), evs, (Raise e).
    rewrite set_time_same. split_and!; try done.
    intros e' He'. right. by apply Hraise.
Qed.

Lemma committed_draining d :
  draining (sprites d) = true -> draining (committed d) = true.
Proof. unfold committed. by case_decide. Qed.

(** [loop_running] branch by branch. *)
Lemma loop_running_frame d w :
  is_running d = true -> internal_loop d = false -> external_loop d = true ->
  loop_running E d w
  = match _loop_end E d w with
    | (d1, w1, Ret _) =>
        match _loop_begin E d1 w1 with
        | (d2, w2, Ret _) => (d2, w2, Ret (is_running d2))
        | (d2, w2, Raise e) => (d2, w2, Raise e)
        end
    | (d1, w1, Raise e) => (d1, w1, Raise e)
    end.
Proof.
  intros Hrun Hint Hext. unfold loop_running. unfold bind at 1.
  unfold get_self at 1. rewrite Hrun, Hint, Hext.
  unfold bind, ret, get_self.
  destruct (_loop_end E d w) as [[d1 w1] [[]|e]]; [|done].
  by destruct (_loop_begin E d1 w1) as [[d2 w2] [[]|e]].
Qed.

Lemma loop_running_first d w :
  is_running d = true -> internal_loop d = false -> external_loop d = false ->
  loop_running E d w
  = match _loop_begin E
            (set_external_loop true (set_time (Some (clock E (ticks w))) d))
            (tick w) with
    | (d2, w2, Ret _) => (d2, w2, Ret (is_running d2))
    | (d2, w2, Raise e) => (d2, w2, Raise e)
    end.
Proof.
  intros Hrun Hint Hext. unfold loop_running. unfold bind at 1.
  unfold get_self at 1. rewrite Hrun, Hint, Hext.
  unfold bind, ret, get_self, time_time, update. cbv beta iota.
  by destruct (_loop_begin E _ _) as [[d2 w2] [[]|e]].
Qed.

Lemma loop_running_internal d w :
  is_running d = true -> internal_loop d = true ->
  loop_running E d w = (d, w, Raise AssertionError).
Proof.
  intros Hrun Hint. unfold loop_running, bind, get_self, raise.
  by rewrite Hrun, Hint.
Qed.

Lemma load_events_expected d t (L : gset nat) evs :
  (forall s, s ∈ L -> s ∈ sprites_to_load d) ->
  Forall (pass_event load_opengl (elements L)) evs ->
  Forall (expected d t) evs.
Proof.
  intros HL H. eapply Forall_impl; [exact H|].
  intros ev [->|(s & Hs & ->)]; [done|]. simpl.
  apply HL. by apply elem_of_elements.
Qed.

(** One [loop_running], whatever its outcome. *)
Lemma loop_running_full d w : exists d' w' evs o,
  loop_running E d w = (d', w', o)
  /\ trace w' = trace w ++ evs
  /\ Forall (expected d (clock E (ticks w))) evs
  /\ is_running d' = is_running d
  /\ (forall b, o = Ret b -> b = is_running d)
  /\ (o = Ret false -> INSTANCE w' = None)
  /\ (draining (sprites d) = true ->
      draining (sprites d') = true /\ o <> Ret true).
Proof.
  destruct (is_running d) eqn:Hrun; [destruct (internal_loop d) eqn:Hint|].
  - rewrite loop_running_internal by done.
    exists d, w, [], (Raise AssertionError). rewrite app_nil_r.
    by split_and!.
  - destruct (external_loop d) eqn:Hext.
    + rewrite loop_running_frame by done.
      destruct (loop_end_full d w)
        as (q & tm & w0 & evs & o & -> & Htr & _ & _ & Hev & _ & Hgen & _ & _).
      destruct o as [[]|e].
      * set (d1 := set_time tm (set_sprites q (set_sprites_to_unload ∅ d))).
        destruct (loop_begin_full d1 w0) as (evs2 & o2 & -> & Hev2 & Hdr & _).
        exists (set_sprites (grown d1) (set_sprites_to_load ∅ d1)),
          (record (glClear :: evs2) w0), (evs ++ glClear :: evs2),
          (match o2 with
           | Ret _ => Ret (is_running (set_sprites (grown d1) (set_sprites_to_load ∅ d1)))
           | Raise e => Raise e
           end).
        split; [by destruct o2 as [[]|]|].
        simpl. rewrite Htr, <- app_assoc. split; [done|].
        split.
        { apply Forall_app. split; [done|]. apply Forall_cons. split; [done|].
          by eapply load_events_expected. }
        split; [by destruct o2 as [[]|]|].
        split; [intros b; destruct o2 as [[]|]; [|done]; intros [= <-]; done|].
        split; [destruct o2 as [[]|]; [|done]; simpl; by rewrite Hrun|].
        intros Hd. apply committed_draining, Hgen in Hd as [Hq _].
        destruct (Hdr Hq) as [-> _]. split; [|done].
        unfold grown. simpl. by destruct q.
      * eexists _, _, evs, _. split; [done|]. split_and!; try done.
        intros Hd. apply committed_draining, Hgen in Hd as [Hq _]. done.
    + rewrite loop_running_first by done.
      set (d0 := set_external_loop true (set_time (Some (clock E (ticks w))) d)).
      destruct (loop_begin_full d0 (tick w)) as (evs2 & o2 & -> & Hev2 & Hdr & _).
      exists (set_sprites (grown d0) (set_sprites_to_load ∅ d0)),
        (record (glClear :: evs2) (tick w)), (glClear :: evs2),
        (match o2 with
         | Ret _ => Ret (is_running (set_sprites (grown d0) (set_sprites_to_load ∅ d0)))
         | Raise e => Raise e
         end).
      split; [by destruct o2 as [[]|]|]. simpl. split; [done|].
      split.
      { apply Forall_cons. split; [done|]. by eapply load_events_expected. }
      split; [by destruct o2 as [[]|]|].
      split; [intros b; destruct o2 as [[]|]; [|done]; intros [= <-]; done|].
      split; [destruct o2 as [[]|]; [|done]; simpl; by rewrite Hrun|].
      intros Hd. destruct (Hdr Hd) as [-> _]. split; [|done].
      unfold grown. simpl. by destruct (sprites d).
  - rewrite loop_running_stopped by done. unfold bind.
    destruct (loop_end_full d w)
      as (q & tm & w0 & evs & o & -> & Htr & _ & _ & Hev & _ & Hgen & _ & _).
    destruct o as [[]|e].
    + rewrite destroy_run. unfold ret.
      eexists _, _, (evs ++ releases _), _. split; [done|].
      simpl. rewrite Htr, <- app_assoc. split_and!; try done.
      * apply Forall_app. split; [done|]. unfold releases.
        apply Forall_cons. split; [done|]. apply Forall_app. split.
        -- destruct (mouse _) as [[m|]|]; by repeat constructor.
        -- destruct (tkwin _) as [tk|]; by repeat constructor.
      * by intros b [= <-].
      * intros Hd. apply committed_draining, Hgen in Hd as [Hq _]. done.
    + eexists _, _, evs, _. split; [done|]. split_and!; try done.
      intros Hd. apply committed_draining, Hgen in Hd as [Hq _]. done.
Qed.

End Passes.

(** ** A removed sprite, in its last frame and after it *)

Section Removal.

Variable E : Externals.










End Removal.

(** C4 fails here.  Sprite 9 was never added: marked for removal, it gets
    no [repaint] in the end phase, only the [unload_opengl].  Sprite 1 was
    added before each of two frames and stands twice in the active list:
    marked for removal, it gets two [repaint] calls before the
    [unload_opengl]. *)
Lemma marked_sprite_counterexample :
  (9%nat ∈ sprites_to_unload never_added.1
   /\ exists d' w' evs,
        _loop_end quiet never_added.1 never_added.2 = (d', w', Ret tt)
        /\ trace w' = trace never_added.2 ++ evs
        /\ received 9 evs = [unload_opengl 9])
  /\ (1%nat ∈ sprites_to_unload added_twice.1
      /\ exists d' w' evs,
           _loop_end quiet added_twice.1 added_twice.2 = (d', w', Ret tt)
           /\ trace w' = trace added_twice.2 ++ evs
           /\ received 1 evs
              = [repaint 1 10.5%float; repaint 1 10.5%float; unload_opengl 1]).
Proof.
  split; split.
  - apply (bool_decide_unpack (9%nat ∈ sprites_to_unload never_added.1)).
    vm_compute. exact I.
  - eexists _, _, [swapBuffers; Hook (unload_opengl 9)].
    split_and!; vm_compute; reflexivity.
  - apply (bool_decide_unpack (1%nat ∈ sprites_to_unload added_twice.1)).
    vm_compute. exact I.
  - eexists _, _, [Hook (repaint 1 10.5%float); Hook (repaint 1 10.5%float);
                   swapBuffers; Hook (unload_opengl 1)].
    split_and!; vm_compute; reflexivity.
Qed.


(** ** Further properties: what a caller can rely on *)

Section Callers.

Variable E : Externals.

(** X1.  [add_sprites] accumulates into a set: two calls amount to one call
    with both argument lists, in either order, and a repeated call changes
    nothing. *)
Theorem add_sprites_accumulate l1 l2 d w :
  after (add_sprites l2) (after (add_sprites l1) (d, w))
  = after (add_sprites (l1 ++ l2)) (d, w)
  /\ after (add_sprites l1) (after (add_sprites l2) (d, w))
     = after (add_sprites (l1 ++ l2)) (d, w)
  /\ after (add_sprites l1) (after (add_sprites l1) (d, w))
     = after (add_sprites l1) (d, w).
Proof.
  unfold after, add_sprites, update, set_sprites_to_load. simpl.
  rewrite list_to_set_app_L.
  assert (Hassoc : sprites_to_load d ∪ list_to_set l1 ∪ list_to_set l2
                   = sprites_to_load d ∪ (list_to_set l1 ∪ list_to_set l2))
    by (by rewrite (assoc_L (∪))).
  assert (Hswap : sprites_to_load d ∪ list_to_set l2 ∪ list_to_set l1
                  = sprites_to_load d ∪ (list_to_set l1 ∪ list_to_set l2))
    by (by rewrite <- (assoc_L (∪)), (comm_L (∪) (list_to_set l2))).
  assert (Hidem : sprites_to_load d ∪ list_to_set l1 ∪ list_to_set l1
                  = sprites_to_load d ∪ list_to_set l1)
    by (by rewrite <- (assoc_L (∪)), (idemp_L (∪))).
  by rewrite Hassoc, Hswap, Hidem.
Qed.

(** X2.  With [RAISE_EXCEPTIONS] off, [_for_each_sprite] always returns:
    every sprite of the sequence gets its call, once and in order, and one
    traceback is logged per hook that raised. *)
Theorem for_each_sprite_swallows f sprites_arg d w :
  RAISE_EXCEPTIONS w = false ->
  let l := match sprites_arg with
           | Some l => l
           | None => items (sprites d)
           end in
  exists q evs,
    _for_each_sprite E f sprites_arg d w = (set_sprites q d, record evs w, Ret tt)
    /\ calls_of evs = map f l
    /\ logged_errors evs = length (filter (fun s => raises E (f s) = true) l).
Proof.
  intros Hoff l.
  assert (Hpass : forall c l0,
            exists q evs,
              for_in c l0 (guarded E f) d w = (set_sprites q d, record evs w, Ret tt)
              /\ calls_of evs = map f l0
              /\ logged_errors evs
                 = length (filter (fun s => raises E (f s) = true) l0)).
  { intros c l0.
    destruct (for_in_pass E f c l0 d w)
      as (q & evs & o & Heq & _ & _ & _ & _ & Hcalls & Hlogs).
    destruct (for_in_guarded E f c l0 d w)
      as (q2 & evs2 & o2 & Heq2 & _ & _ & _ & Hok & _).
    rewrite Heq in Heq2. injection Heq2 as _ _ <-.
    assert (o = Ret tt) as -> by (apply Hok; by left).
    exists q, evs. split_and!; [done|by apply Hcalls|by apply Hlogs]. }
  subst l. unfold _for_each_sprite. destruct sprites_arg as [l'|]; [apply Hpass|].
  unfold bind, get_self. destruct (sprites d); apply Hpass.
Qed.

(** X3.  With [RAISE_EXCEPTIONS] on, [_for_each_sprite] stops at the first
    hook that raises: the sprites before it got their call, the fault is
    logged once and re-raised, and the sprites after it get no call. *)
Theorem for_each_sprite_fails_fast f l1 s l2 d w :
  RAISE_EXCEPTIONS w = true ->
  (forall x, x ∈ l1 -> raises E (f x) = false) ->
  raises E (f s) = true ->
  _for_each_sprite E f (Some (l1 ++ s :: l2)) d w
  = (d, record (map (fun x => Hook (f x)) l1 ++ [Hook (f s); Log LError]) w,
     Raise (HookError (f s))).
Proof.
  intros Hon Hquiet Hs. unfold _for_each_sprite.
  revert w Hon. induction l1 as [|x l1 IH]; intros w Hon.
  - simpl. unfold bind, ret. by rewrite guarded_run, Hs, Hon.
  - simpl. unfold bind at 1. unfold ret at 1. unfold bind at 1.
    rewrite guarded_run, Hquiet by (by left).
    rewrite IH; [|intros y Hy; apply Hquiet; by right|done].
    by rewrite record_record.
Qed.

(** X4.  A begin phase that returns, on a display whose [sprites] is a
    list, appends the pending sprites to it, empties the pending set, clears
    the buffer first and calls [load_opengl] exactly once on each pending
    sprite and on no other. *)
Theorem begin_phase_loads_each_pending_once d w d' w' l :
  sprites d = SList l ->
  _loop_begin E d w = (d', w', Ret tt) ->
  sprites d' = SList (l ++ elements (sprites_to_load d))
  /\ sprites_to_load d' = ∅
  /\ exists evs,
       trace w' = trace w ++ glClear :: evs
       /\ forall s,
            received s evs
            = if decide (s ∈ sprites_to_load d) then [load_opengl s] else [].
Proof.
  intros Hl Hrun.
  destruct (loop_begin_full E d w) as (evs & o & Heq & _ & _ & Hlist).
  rewrite Heq in Hrun. injection Hrun as <- <- ->.
  destruct Hlist as (Hcalls & _); [by rewrite Hl|].
  unfold grown. rewrite Hl. split; [done|]. split; [done|].
  exists evs. split; [done|]. intros s. unfold received.
  rewrite Hcalls by done.
  assert (Hmap : forall k : list nat,
            filter (fun c => receiver c = s) (map load_opengl k)
            = map load_opengl (filter (fun x => x = s) k)).
  { induction k as [|a k IH]; [done|]. simpl map. rewrite !filter_cons.
    simpl receiver. case_decide; simpl; by rewrite IH. }
  rewrite Hmap. case_decide as Hin.
  - rewrite filter_eq_NoDup; [done|apply NoDup_elements|].
    by apply elem_of_elements.
  - rewrite filter_eq_absent; [done|]. by rewrite elem_of_elements.
Qed.

(** X5.  An end phase that returns with nothing marked for removal, on a
    display whose [sprites] is a list, leaves that list and the pending
    loads alone and calls [repaint] once on each active sprite, in drawing
    order and all with the time read at the start of the phase; it makes no
    other hook call. *)
Theorem end_phase_repaints_active d w d' w' l :
  sprites d = SList l ->
  sprites_to_unload d = ∅ ->
  _loop_end E d w = (d', w', Ret tt) ->
  sprites d' = SList l
  /\ sprites_to_load d' = sprites_to_load d
  /\ sprites_to_unload d' = ∅
  /\ exists evs,
       trace w' = trace w ++ evs
       /\ calls_of evs = map (fun s => repaint s (clock E (ticks w))) l.
Proof.
  intros Hl Hnone Hrun.
  destruct (loop_end_full E d w)
    as (q & tm & w0 & evs & o & Heq & Htr & _ & _ & _ & Hlist & _ & Hcalls & _).
  rewrite Heq in Hrun. injection Hrun as <- <- ->.
  assert (Hc : committed d = SList l)
    by (unfold committed; by rewrite decide_True, Hl).
  rewrite Hc in *. simpl. rewrite Hlist by done.
  split_and!; try done. exists evs. split; [done|].
  rewrite Hcalls, Hnone, elements_empty by done. simpl. by rewrite app_nil_r.
Qed.

(** X6.  An end phase that returns with some sprite marked for removal
    repaints the marked sprites that are active, unloads every marked
    sprite once, and leaves [self.sprites] a drained generator: no sprite is
    active any more, the unmarked ones included. *)
Theorem end_phase_with_removal_drains d w d' w' :
  sprites_to_unload d <> ∅ ->
  _loop_end E d w = (d', w', Ret tt) ->
  sprites d' = SGen []
  /\ sprites_to_unload d' = ∅
  /\ exists evs,
       trace w' = trace w ++ evs
       /\ calls_of evs
          = map (fun s => repaint s (clock E (ticks w)))
              (filter (fun s => s ∈ sprites_to_unload d) (items (sprites d)))
            ++ map unload_opengl (elements (sprites_to_unload d)).
Proof.
  intros Hsome Hrun.
  destruct (loop_end_full E d w)
    as (q & tm & w0 & evs & o & Heq & Htr & _ & _ & _ & _ & Hgen & Hcalls & _).
  rewrite Heq in Hrun. injection Hrun as <- <- ->.
  assert (Hc : committed d
               = SGen (filter (fun s => s ∈ sprites_to_unload d) (items (sprites d))))
    by (unfold committed; by rewrite decide_False).
  rewrite Hc in *. destruct Hgen as [_ Hq]; [done|]. simpl.
  rewrite Hq by done. split_and!; try done.
  exists evs. split; [done|]. by rewrite Hcalls.
Qed.

(** X7.  On a running display in its own loop, a [loop_running] that finds
    a sprite marked for removal never returns: either a hook's exception
    escapes the end phase, or the begin phase raises [AttributeError],
    [self.sprites] being a generator by then. *)
Theorem removal_breaks_next_frame d w :
  is_running d = true ->
  internal_loop d = false ->
  external_loop d = true ->
  sprites_to_unload d <> ∅ ->
  exists d' w' e,
    loop_running E d w = (d', w', Raise e)
    /\ (e = AttributeError \/ exists c, e = HookError c).
Proof.
  intros Hrun Hint Hext Hsome. rewrite loop_running_frame by done.
  destruct (loop_end_full E d w)
    as (q & tm & w0 & evs & o & -> & _ & _ & _ & _ & _ & Hgen & _ & Hraise).
  destruct o as [[]|e].
  - set (d1 := set_time tm (set_sprites q (set_sprites_to_unload ∅ d))).
    destruct (loop_begin_full E d1 w0) as (evs2 & o2 & -> & _ & Hdr & _).
    destruct Hdr as [-> _].
    { apply Hgen. unfold committed. by rewrite decide_False. }
    eexists _, _, _. split; [done|]. by left.
  - eexists _, _, _. split; [done|]. by apply Hraise.
Qed.

(** X8.  Once [self.sprites] is a generator it stays one, and
    [loop_running] never returns [True] again. *)
Theorem generator_never_frames_again d w d' w' o :
  draining (sprites d) = true ->
  loop_running E d w = (d', w', o) ->
  draining (sprites d') = true /\ o <> Ret true.
Proof.
  intros Hd Hrun.
  destruct (loop_running_full E d w)
    as (d2 & w2 & evs & o2 & Heq & _ & _ & _ & _ & _ & Hgen).
  rewrite Heq in Hrun. injection Hrun as <- <- <-. by apply Hgen.
Qed.

(** X9.  A [loop_running] that returns, on a running display in its own
    loop with a list of sprites and nothing marked for removal, returns
    [True]; it has repainted every active sprite once, in drawing order,
    then cleared the buffer and loaded the pending sprites, which are now
    at the end of the list. *)
Theorem steady_frame d w d' w' b l :
  is_running d = true ->
  internal_loop d = false ->
  external_loop d = true ->
  sprites d = SList l ->
  sprites_to_unload d = ∅ ->
  loop_running E d w = (d', w', Ret b) ->
  b = true
  /\ sprites d' = SList (l ++ elements (sprites_to_load d))
  /\ sprites_to_load d' = ∅
  /\ sprites_to_unload d' = ∅
  /\ exists painted loaded,
       trace w' = trace w ++ painted ++ glClear :: loaded
       /\ calls_of painted = map (fun s => repaint s (clock E (ticks w))) l
       /\ calls_of loaded = map load_opengl (elements (sprites_to_load d)).
Proof.
  intros Hrun Hint Hext Hl Hnone. rewrite loop_running_frame by done.
  destruct (loop_end_full E d w)
    as (q & tm & w0 & evs & o & -> & Htr & _ & _ & _ & Hlist & _ & Hcalls & _).
  destruct o as [[]|e]; [|done].
  assert (Hc : committed d = SList l)
    by (unfold committed; by rewrite decide_True, Hl).
  rewrite Hc in *. rewrite Hlist in * by done.
  set (d1 := set_time tm (set_sprites (SList l) (set_sprites_to_unload ∅ d))).
  destruct (loop_begin_full E d1 w0) as (evs2 & o2 & -> & _ & _ & Hbegin).
  destruct Hbegin as (Hloads & _); [done|].
  destruct o2 as [[]|e]; [|done]. intros [= <- <- <-]. simpl.
  split; [done|]. unfold grown. simpl. split_and!; try done.
  exists evs, evs2. rewrite Htr, <- app_assoc. split; [done|].
  split; [|by apply Hloads].
  rewrite Hcalls, Hnone, elements_empty by done. simpl. by rewrite app_nil_r.
Qed.

(** X10.  What [loop_running] returns is the running flag it found, which
    it never changes; when it returns [False] the display has been
    destroyed and [Display.INSTANCE] is empty. *)
Theorem loop_running_returns_running_flag d w d' w' b :
  loop_running E d w = (d', w', Ret b) ->
  b = is_running d
  /\ is_running d' = is_running d
  /\ (b = false -> INSTANCE w' = None).
Proof.
  intros Hrun.
  destruct (loop_running_full E d w)
    as (d2 & w2 & evs & o2 & Heq & _ & _ & Hsame & Hflag & Hinst & _).
  rewrite Heq in Hrun. injection Hrun as <- <- ->.
  split_and!; [by apply Hflag|done|]. intros ->. by apply Hinst.
Qed.

(** X11.  [stop] is cooperative: it makes no call itself, and the
    [loop_running] after it, if it returns, has run a last end phase
    (repaints, then unloads), then made the release calls, emptied
    [Display.INSTANCE] and returned [False]. *)
Theorem stop_then_loop_running d w d' w' b :
  bind stop (fun _ => loop_running E) d w = (d', w', Ret b) ->
  b = false
  /\ INSTANCE w' = None
  /\ exists evs,
       trace w' = trace w ++ evs ++ releases d
       /\ calls_of evs
          = map (fun s => repaint s (clock E (ticks w))) (items (committed d))
            ++ map unload_opengl (elements (sprites_to_unload d)).
Proof.
  unfold bind at 1. unfold stop, update.
  rewrite loop_running_stopped by done. unfold bind.
  destruct (loop_end_full E (set_is_running false d) w)
    as (q & tm & w0 & evs & o & -> & Htr & _ & _ & _ & _ & _ & Hcalls & _).
  destruct o as [[]|e]; [|done]. rewrite destroy_run. unfold ret.
  intros [= <- <- <-]. simpl. split_and!; try done.
  exists evs. rewrite Htr, <- app_assoc. split; [done|]. by apply Hcalls.
Qed.

(** X12.  [destroy] twice in a row never raises and leaves the display and
    [Display.INSTANCE] as one [destroy] does, but makes every release call
    a second time. *)
Theorem destroy_twice d w :
  bind destroy (fun _ => destroy) d w
  = (set_is_running false d,
     set_INSTANCE None (record (releases d ++ releases d) w),
     Ret tt).
Proof.
  unfold bind. rewrite !destroy_run.
  unfold set_INSTANCE, record, releases. simpl. by rewrite <- app_assoc.
Qed.

(** X13.  Whatever its outcome, [loop_running] never sleeps for a length
    that is not positive. *)
Theorem loop_running_sleeps_positive d w d' w' o :
  loop_running E d w = (d', w', o) ->
  exists evs,
    trace w' = trace w ++ evs
    /\ forall delta, Sleep delta ∈ evs -> (0 <? delta)%float = true.
Proof.
  intros Hrun.
  destruct (loop_running_full E d w)
    as (d2 & w2 & evs & o2 & Heq & Htr & Hev & _).
  rewrite Heq in Hrun. injection Hrun as <- <- <-.
  exists evs. split; [done|]. intros delta Hin.
  rewrite Forall_forall in Hev. exact (Hev _ Hin).
Qed.

(** X14.  Whatever its outcome, [loop_running] calls hooks only on sprites
    the display knew when it was called (active, pending load or marked for
    removal), and every [repaint] of the call carries the same time, the
    first clock reading of the call. *)
Theorem loop_running_calls_known d w d' w' o :
  loop_running E d w = (d', w', o) ->
  exists evs,
    trace w' = trace w ++ evs
    /\ forall c, Hook c ∈ evs ->
         receiver c ∈ known d
         /\ forall s t, c = repaint s t -> t = clock E (ticks w).
Proof.
  intros Hrun.
  destruct (loop_running_full E d w)
    as (d2 & w2 & evs & o2 & Heq & Htr & Hev & _).
  rewrite Heq in Hrun. injection Hrun as <- <- <-.
  exists evs. split; [done|]. intros c Hin.
  rewrite Forall_forall in Hev. specialize (Hev _ Hin).
  unfold known. destruct c as [s|s t|s]; simpl in *.
  - split; [set_solver|done].
  - destruct Hev as [Hs ->]. split; [|by intros ?? [= _ <-]].
    apply elem_of_union_l, elem_of_union_l. by apply elem_of_list_to_set.
  - split; [set_solver|done].
Qed.

Lemma deadline_after_shift n fps t0 :
  deadline_after n fps (t0 + 1 / fps)%float
  = (deadline_after n fps t0 + 1 / fps)%float.
Proof. induction n as [|n IH]; [done|]. simpl. by rewrite IH. Qed.

Lemma loop_end_advances_deadline d w d' w' fps t0 :
  frames_per_second d = Some fps ->
  truthy fps = true ->
  time d = Some t0 ->
  _loop_end E d w = (d', w', Ret tt) ->
  frames_per_second d' = Some fps /\ time d' = Some (t0 + 1 / fps)%float.
Proof.
  intros Hfps Htruthy Htime. unfold _loop_end, bind.
  destruct (loop_end_frame_full E d w) as (q & evs & o & -> & _).
  destruct o as [[]|e]; [|done].
  unfold _loop_end_pacing, bind, get_self. simpl.
  rewrite Hfps, Htruthy, Htime.
  unfold update, time_time, emit, update_world, ret. simpl.
  destruct (PrimFloat.ltb _ _); by intros [= <- _].
Qed.

(** X15.  The deadline is integrated: after [n] end phases in a row that
    return, with a frame rate set and the deadline in place, [self.time] is
    the first deadline plus [n] frame intervals, whatever the clock read and
    whatever the frames cost. *)
Theorem paced_frames_deadline n : forall d w d' w' fps t0,
  frames_per_second d = Some fps ->
  truthy fps = true ->
  time d = Some t0 ->
  end_phases E n d w = (d', w', Ret tt) ->
  time d' = Some (deadline_after n fps t0).
Proof.
  induction n as [|n IH]; intros d w d' w' fps t0 Hfps Htruthy Htime.
  - simpl. unfold ret. by intros [= <- _].
  - simpl. unfold bind.
    destruct (_loop_end E d w) as [[d1 w1] [[]|e]] eqn:Hend; [|done].
    destruct (loop_end_advances_deadline _ _ _ _ _ _ Hfps Htruthy Htime Hend)
      as [Hfps1 Htime1].
    intros Hrest. rewrite <- deadline_after_shift.
    by eapply IH.
Qed.

(** The size [create] settles on along one axis: the given one if
    positive, else the screen less twice the offset, else the screen. *)
Lemma fitted_positive given maxv off :
  0 < maxv ->
  0 < (if given <=? 0
       then if maxv - 2 * off <=? 0 then maxv else maxv - 2 * off
       else given).
Proof.
  intros Hmax.
  destruct (Z.leb_spec given 0); [|lia].
  destruct (Z.leb_spec (maxv - 2 * off) 0); lia.
Qed.

Ltac create_cases tk mouse_ is_3d background :=
  unfold create, __init__;
  destruct tk; [destruct (negb _) eqn:?|];
  try (destruct (INSTANCE _) eqn:?;
       [destruct (ALLOW_MULTIPLE_DISPLAYS _) eqn:?|]);
  unfold bind, emit, update, update_world, math_tan, to_float, raise, ret;
  cbv beta iota;
  destruct mouse_, is_3d, background as [[[[? ?] ?] ?]|];
  cbv beta iota;
  repeat match goal with
         | |- context [tan_fails ?a ?b] => destruct (tan_fails a b)
         | |- context [float_of_int ?z] => destruct (float_of_int z)
         | |- context [PrimFloat.eqb ?a ?b] => destruct (PrimFloat.eqb a b)
         end.

(** X16.  On a screen of positive size, the display [create] returns has a
    positive width and height, a positive given size is kept as it is, and
    [right] and [bottom] are [left + width] and [top + height]. *)
Theorem create_geometry self is_3d x y w h near_ far_ aspect depth
    background tk mouse_ fps wd wd' d :
  0 < opengl_width E ->
  0 < opengl_height E ->
  create E self is_3d x y w h near_ far_ aspect depth background tk mouse_
    fps wd = (wd', Ret d) ->
  exists g,
    geometry d = Some g
    /\ 0 < width g /\ 0 < height g
    /\ right g = left g + width g /\ bottom g = top g + height g
    /\ (forall z, w = Some z -> 0 < z -> width g = z)
    /\ (forall z, h = Some z -> 0 < z -> height g = z).
Proof.
  intros Hw Hh.
  assert (Hkeep : forall (o : option Z) z maxv off,
            o = Some z -> 0 < z ->
            (if default 0 o <=? 0
             then if maxv - 2 * off <=? 0 then maxv else maxv - 2 * off
             else default 0 o) = z).
  { intros o z maxv off -> Hz. simpl. destruct (Z.leb_spec z 0); lia. }
  create_cases tk mouse_ is_3d background;
    intros [= <- <-]; eexists; (split; [reflexivity|]); simpl;
    (split_and!; [by apply fitted_positive|by apply fitted_positive
                 |done|done
                 |intros z Hz Hpos; exact (Hkeep _ _ _ _ Hz Hpos)
                 |intros z Hz Hpos; exact (Hkeep _ _ _ _ Hz Hpos)]).
Qed.

(** The display [create] returns is as [__init__] left it, geometry and
    mouse apart. *)
Lemma create_fresh self is_3d x y w h near_ far_ aspect depth
    background tk mouse_ fps wd wd' d :
  create E self is_3d x y w h near_ far_ aspect depth background tk mouse_
    fps wd = (wd', Ret d) ->
  ident d = self
  /\ is_running d = true /\ internal_loop d = false /\ external_loop d = false
  /\ sprites d = SList [] /\ sprites_to_load d = ∅ /\ sprites_to_unload d = ∅
  /\ time d = None /\ frames_per_second d = None
  /\ tkwin d = (if tk then Some (new_tkwin E (default 0 w) (default 0 h)) else None)
  /\ exists g,
       mouse d = Some (if mouse_
                       then Some {| mouse_width := width g;
                                    mouse_height := height g;
                                    position := new_mouse_position E |}
                       else None)
       /\ geometry d = Some g.
Proof.
  create_cases tk mouse_ is_3d background;
    intros [= <- <-]; simpl; split_and!; try done;
    eexists; (split; [|reflexivity]); reflexivity.
Qed.

(** X17.  The display [create] returns is the process's current display
    only if there was none: [Display.INSTANCE] is the new display when it
    was empty, and stays the older display otherwise, which takes
    [ALLOW_MULTIPLE_DISPLAYS]. *)
Theorem create_current self is_3d x y w h near_ far_ aspect depth
    background tk mouse_ fps wd wd' d :
  create E self is_3d x y w h near_ far_ aspect depth background tk mouse_
    fps wd = (wd', Ret d) ->
  ident d = self
  /\ INSTANCE wd' = Some (default self (INSTANCE wd))
  /\ (INSTANCE wd <> None -> ALLOW_MULTIPLE_DISPLAYS wd = true).
Proof.
  create_cases tk mouse_ is_3d background;
    intros [= <- <-]; simpl in *;
    repeat match goal with H : INSTANCE _ = _ |- _ => rewrite H end;
    split_and!; done.
Qed.

(** X18.  [create] drops its [frames_per_second] argument: the display it
    returns has no frame rate, and the pacing of its end phases does
    nothing, whatever rate was asked for. *)
Theorem create_ignores_frame_rate self is_3d x y w h near_ far_ aspect depth
    background tk mouse_ fps wd wd' d :
  create E self is_3d x y w h near_ far_ aspect depth background tk mouse_
    fps wd = (wd', Ret d) ->
  frames_per_second d = None
  /\ forall w0, _loop_end_pacing E d w0 = (d, w0, Ret tt).
Proof.
  intros Hc. apply create_fresh in Hc as (_ & _ & _ & _ & _ & _ & _ & _ & Hfps & _).
  split; [done|]. intros w0. unfold _loop_end_pacing, bind, get_self.
  by rewrite Hfps.
Qed.

(** X19.  The first [loop_running] on a display just returned by [create]
    records the time, clears the buffer, calls no hook and returns
    [True]. *)
Theorem create_then_loop_running self is_3d x y w h near_ far_ aspect depth
    background tk mouse_ fps wd wd' d w0 :
  create E self is_3d x y w h near_ far_ aspect depth background tk mouse_
    fps wd = (wd', Ret d) ->
  loop_running E d w0
  = (set_external_loop true (set_time (Some (clock E (ticks w0))) d),
     record [glClear] (tick w0), Ret true).
Proof.
  intros Hc.
  apply create_fresh in Hc
    as (_ & Hrun & Hint & Hext & Hl & Hload & _ & _ & _ & _ & _).
  rewrite loop_running_first by done.
  unfold _loop_begin, bind, emit, update_world, get_self, update. simpl.
  rewrite Hl, Hload, elements_empty. simpl. unfold ret.
  rewrite Hrun. f_equal. f_equal.
  destruct d. simpl in *. by subst.
Qed.

(** X20.  On a display returned by [create], [mouse_position] never raises:
    it is the mouse's position if a mouse was asked for, else the tk
    window's pointer if tk was, else [(-1, -1)]. *)
Theorem created_mouse_position self is_3d x y w h near_ far_ aspect depth
    background tk mouse_ fps wd wd' d w0 :
  create E self is_3d x y w h near_ far_ aspect depth background tk mouse_
    fps wd = (wd', Ret d) ->
  mouse_position d w0
  = (d, w0,
     Ret (if mouse_ then new_mouse_position E
          else if tk
               then winfo_pointerxy (new_tkwin E (default 0 w) (default 0 h))
               else (-1, -1))).
Proof.
  intros Hc.
  apply create_fresh in Hc
    as (_ & _ & _ & _ & _ & _ & _ & _ & _ & Htk & g & Hm & _).
  unfold mouse_position, bind, get_self. rewrite Hm, Htk.
  by destruct mouse_, tk.
Qed.

Lemma received_map_load s (l : list nat) :
  filter (fun c => receiver c = s) (map load_opengl l)
  = map load_opengl (filter (fun x => x = s) l).
Proof.
  induction l as [|a l IH]; [done|].
  simpl map. rewrite !filter_cons. simpl receiver.
  case_decide; simpl; by rewrite IH.
Qed.

(** X23.  [remove_sprites] does not cancel a pending [add_sprites]: a sprite
    added and then removed before the begin phase is still loaded and made
    active by it, and stays marked for removal. *)
Theorem removal_does_not_cancel_add s d w d' w' l :
  sprites d = SList l ->
  bind (add_sprites [s]) (fun _ =>
    bind (remove_sprites [s]) (fun _ => _loop_begin E)) d w = (d', w', Ret tt) ->
  s ∈ items (sprites d')
  /\ s ∈ sprites_to_unload d'
  /\ exists evs,
       trace w' = trace w ++ glClear :: evs
       /\ received s evs = [load_opengl s].
Proof.
  intros Hl. unfold bind at 1 2. unfold add_sprites, remove_sprites, update.
  set (d2 := set_sprites_to_unload _ (set_sprites_to_load _ d)).
  destruct (loop_begin_full E d2 w) as (evs & o & -> & _ & _ & Hlist).
  destruct Hlist as (Hcalls & _); [unfold d2; simpl; by rewrite Hl|].
  intros [= <- <- ->].
  assert (Hmem : s ∈ (list_to_set [s] : gset nat))
    by (apply elem_of_list_to_set; by left).
  assert (Hin : s ∈ sprites_to_load d2)
    by (unfold d2; simpl; by apply elem_of_union_r).
  split_and!.
  - unfold grown, d2. simpl. rewrite Hl. simpl.
    apply elem_of_app. right. by apply elem_of_elements.
  - simpl. by apply elem_of_union_r.
  - exists evs. split; [done|]. unfold received.
    rewrite Hcalls, received_map_load by done.
    rewrite filter_eq_NoDup; [done|apply NoDup_elements|].
    by apply elem_of_elements.
Qed.

(** X24.  A sprite marked for removal that is not active gets, in an end
    phase that returns, its [unload_opengl] and nothing else: no [repaint],
    and no check that it was ever loaded. *)
Theorem unknown_sprite_is_unloaded s d w d' w' :
  s ∈ sprites_to_unload d ->
  s ∉ items (sprites d) ->
  _loop_end E d w = (d', w', Ret tt) ->
  exists evs,
    trace w' = trace w ++ evs
    /\ received s evs = [unload_opengl s].
Proof.
  intros Hs Hout Hrun.
  destruct (loop_end_full E d w)
    as (q & tm & w0 & evs & o & Heq & Htr & _ & _ & _ & _ & _ & Hcalls & _).
  rewrite Heq in Hrun. injection Hrun as <- <- ->.
  exists evs. split; [done|]. unfold received. rewrite Hcalls by done.
  rewrite filter_app, received_map_repaint, received_map_unload.
  unfold committed. rewrite decide_False by set_solver. simpl items.
  rewrite filter_eq_filter by done. rewrite filter_eq_absent by done.
  rewrite filter_eq_NoDup; [done|apply NoDup_elements|].
  by apply elem_of_elements.
Qed.

(** X25.  Load comes before the first repaint: over a begin phase and the
    end phase after it, with nothing marked for removal, a pending sprite
    that was not active gets exactly [load_opengl] and then one [repaint]. *)
Theorem load_then_first_repaint s d w d' w' l :
  sprites d = SList l ->
  sprites_to_unload d = ∅ ->
  s ∈ sprites_to_load d ->
  s ∉ l ->
  bind (_loop_begin E) (fun _ => _loop_end E) d w = (d', w', Ret tt) ->
  exists evs,
    trace w' = trace w ++ evs
    /\ received s evs = [load_opengl s; repaint s (clock E (ticks w))].
Proof.
  intros Hl Hnone Hs Hout. unfold bind.
  destruct (loop_begin_full E d w) as (evs1 & o1 & -> & _ & _ & Hlist).
  destruct Hlist as (Hloads & _); [by rewrite Hl|].
  destruct o1 as [[]|e]; [|done].
  set (d1 := set_sprites (grown d) (set_sprites_to_load ∅ d)).
  destruct (loop_end_full E d1 (record (glClear :: evs1) w))
    as (q & tm & w0 & evs & o & -> & Htr & _ & _ & _ & _ & _ & Hcalls & _).
  intros [= <- <- ->]. exists ((glClear :: evs1) ++ evs).
  split; [simpl in Htr; by rewrite Htr, <- app_assoc|].
  assert (Hc : committed d1 = SList (l ++ elements (sprites_to_load d))).
  { unfold committed, d1, grown. simpl. by rewrite decide_True, Hl. }
  assert (Hone : filter (fun x => x = s) (elements (sprites_to_load d)) = [s]).
  { rewrite filter_eq_NoDup; [done|apply NoDup_elements|].
    by apply elem_of_elements. }
  rewrite received_app. unfold received. simpl calls_of at 1.
  rewrite Hloads, Hcalls by done. rewrite Hc. simpl items.
  rewrite received_map_load, Hone. simpl sprites_to_unload.
  rewrite Hnone, elements_empty. simpl map at 3. rewrite app_nil_r.
  rewrite received_map_repaint, filter_app, Hone.
  by rewrite filter_eq_absent.
Qed.

End Callers.

(** ** Concrete runs of the further properties *)

(** [for_each_sprite_swallows] at two sprites whose [repaint] raises. *)
Lemma for_each_sprite_swallows_witness :
  let l := [1; 2]%nat in
  exists q evs,
    _for_each_sprite repaint_faults (fun s => repaint s 1%float) (Some [1; 2]%nat)
      fresh.1 (swallowing fresh.2)
    = (set_sprites q fresh.1, record evs (swallowing fresh.2), Ret tt)
    /\ calls_of evs = map (fun s => repaint s 1%float) l
    /\ logged_errors evs
       = length (filter (fun s => raises repaint_faults (repaint s 1%float) = true) l).
Proof.
  apply (for_each_sprite_swallows repaint_faults (fun s => repaint s 1%float)
           (Some [1; 2]%nat) fresh.1 (swallowing fresh.2)).
  reflexivity.
Defined.

(** [for_each_sprite_fails_fast] at sprites 1, 2, 3 with sprite 2 raising. *)
Lemma for_each_sprite_fails_fast_witness :
  _for_each_sprite sprite_two_faults load_opengl (Some [1; 2; 3]%nat)
    fresh.1 fresh.2
  = (fresh.1,
     record [Hook (load_opengl 1); Hook (load_opengl 2); Log LError] fresh.2,
     Raise (HookError (load_opengl 2))).
Proof.
  apply (for_each_sprite_fails_fast sprite_two_faults load_opengl
           [1%nat] 2%nat [3%nat] fresh.1 fresh.2).
  - reflexivity.
  - intros x Hx. apply list_elem_of_singleton in Hx. subst x. reflexivity.
  - reflexivity.
Defined.

(** [begin_phase_loads_each_pending_once] at the fresh display with sprites
    1 and 2 pending. *)
Lemma begin_phase_witness :
  sprites (after (_loop_begin quiet) (after (add_sprites [1; 2]%nat) fresh)).1
  = SList ([] ++ elements (sprites_to_load (after (add_sprites [1; 2]%nat) fresh).1)).
Proof.
  apply (begin_phase_loads_each_pending_once quiet
           (after (add_sprites [1; 2]%nat) fresh).1
           (after (add_sprites [1; 2]%nat) fresh).2
           (after (_loop_begin quiet) (after (add_sprites [1; 2]%nat) fresh)).1
           (after (_loop_begin quiet) (after (add_sprites [1; 2]%nat) fresh)).2
           []).
  - reflexivity.
  - vm_compute. reflexivity.
Defined.

(** [end_phase_repaints_active] at two active sprites. *)
Lemma end_phase_repaints_active_witness :
  sprites (after (_loop_end quiet) two_active).1 = SList [2; 1]%nat.
Proof.
  apply (end_phase_repaints_active quiet two_active.1 two_active.2
           (after (_loop_end quiet) two_active).1
           (after (_loop_end quiet) two_active).2 [2; 1]%nat).
  - vm_compute. reflexivity.
  - vm_compute. reflexivity.
  - vm_compute. reflexivity.
Defined.

(** [end_phase_with_removal_drains] at two active sprites, one marked. *)
Lemma end_phase_with_removal_witness :
  sprites (after (_loop_end quiet) one_removed).1 = SGen [].
Proof.
  apply (end_phase_with_removal_drains quiet one_removed.1 one_removed.2
           (after (_loop_end quiet) one_removed).1
           (after (_loop_end quiet) one_removed).2).
  - intros Hempty.
    assert (Hin : 1%nat ∈ sprites_to_unload one_removed.1)
      by (apply (bool_decide_unpack (1%nat ∈ sprites_to_unload one_removed.1));
          vm_compute; exact I).
    rewrite Hempty in Hin. by apply not_elem_of_empty in Hin.
  - vm_compute. reflexivity.
Defined.

(** [removal_breaks_next_frame] at the same state. *)
Lemma removal_breaks_next_frame_witness :
  exists d' w' e,
    loop_running quiet one_removed.1 one_removed.2 = (d', w', Raise e)
    /\ (e = AttributeError \/ exists c, e = HookError c).
Proof.
  apply (removal_breaks_next_frame quiet one_removed.1 one_removed.2).
  - reflexivity.
  - reflexivity.
  - reflexivity.
  - intros Hempty.
    assert (Hin : 1%nat ∈ sprites_to_unload one_removed.1)
      by (apply (bool_decide_unpack (1%nat ∈ sprites_to_unload one_removed.1));
          vm_compute; exact I).
    rewrite Hempty in Hin. by apply not_elem_of_empty in Hin.
Defined.

(** [generator_never_frames_again] at the state the removal left. *)
Lemma generator_never_frames_again_witness :
  draining
    (sprites (after (loop_running quiet) (after (_loop_end quiet) one_removed)).1)
  = true
  /\ (loop_running quiet (after (_loop_end quiet) one_removed).1
        (after (_loop_end quiet) one_removed).2).2 <> Ret true.
Proof.
  apply (generator_never_frames_again quiet
           (after (_loop_end quiet) one_removed).1
           (after (_loop_end quiet) one_removed).2
           (after (loop_running quiet) (after (_loop_end quiet) one_removed)).1
           (after (loop_running quiet) (after (_loop_end quiet) one_removed)).2).
  - vm_compute. reflexivity.
  - vm_compute. reflexivity.
Defined.

(** [steady_frame] at two active sprites. *)
Lemma steady_frame_witness :
  sprites (after (loop_running quiet) two_active).1
  = SList ([2; 1]%nat ++ elements (sprites_to_load two_active.1)).
Proof.
  apply (steady_frame quiet two_active.1 two_active.2
           (after (loop_running quiet) two_active).1
           (after (loop_running quiet) two_active).2 true [2; 1]%nat).
  - reflexivity.
  - reflexivity.
  - reflexivity.
  - vm_compute. reflexivity.
  - vm_compute. reflexivity.
  - vm_compute. reflexivity.
Defined.

(** [loop_running_returns_running_flag] at the fresh display. *)
Lemma loop_running_returns_running_flag_witness :
  true = is_running fresh.1
  /\ is_running (after (loop_running quiet) fresh).1 = is_running fresh.1
  /\ (true = false -> INSTANCE (after (loop_running quiet) fresh).2 = None).
Proof.
  apply (loop_running_returns_running_flag quiet fresh.1 fresh.2
           (after (loop_running quiet) fresh).1
           (after (loop_running quiet) fresh).2 true).
  vm_compute. reflexivity.
Defined.

(** [stop_then_loop_running] at two active sprites. *)
Lemma stop_then_loop_running_witness :
  INSTANCE (after (bind stop (fun _ => loop_running quiet)) two_active).2 = None.
Proof.
  apply (stop_then_loop_running quiet two_active.1 two_active.2
           (after (bind stop (fun _ => loop_running quiet)) two_active).1
           (after (bind stop (fun _ => loop_running quiet)) two_active).2 false).
  vm_compute. reflexivity.
Defined.

(** [loop_running_sleeps_positive] and [loop_running_calls_known] at the
    call that finds sprite 1 marked. *)
Lemma loop_running_sleeps_positive_witness :
  exists evs,
    trace (after (loop_running quiet) one_removed).2 = trace one_removed.2 ++ evs
    /\ forall delta, Sleep delta ∈ evs -> (0 <? delta)%float = true.
Proof.
  apply (loop_running_sleeps_positive quiet one_removed.1 one_removed.2
           (after (loop_running quiet) one_removed).1
           (after (loop_running quiet) one_removed).2
           (Raise AttributeError)).
  vm_compute. reflexivity.
Defined.

Lemma loop_running_calls_known_witness :
  exists evs,
    trace (after (loop_running quiet) one_removed).2 = trace one_removed.2 ++ evs
    /\ forall c, Hook c ∈ evs ->
         receiver c ∈ known one_removed.1
         /\ forall s t, c = repaint s t -> t = clock quiet (ticks one_removed.2).
Proof.
  apply (loop_running_calls_known quiet one_removed.1 one_removed.2
           (after (loop_running quiet) one_removed).1
           (after (loop_running quiet) one_removed).2
           (Raise AttributeError)).
  vm_compute. reflexivity.
Defined.

(** [paced_frames_deadline] at three frames of a quarter of a second from
    the deadline 10.5. *)
Lemma paced_frames_deadline_witness :
  time (after (end_phases quiet 3) (paced, fresh.2)).1 = Some 11.25%float.
Proof.
  apply (paced_frames_deadline quiet 3 paced fresh.2
           (after (end_phases quiet 3) (paced, fresh.2)).1
           (after (end_phases quiet 3) (paced, fresh.2)).2
           4.0%float 10.5%float).
  - reflexivity.
  - reflexivity.
  - reflexivity.
  - vm_compute. reflexivity.
Defined.

(** The properties of [create] at the call with every argument at its
    default. *)
Lemma create_geometry_witness :
  exists g,
    geometry (the_display created) = Some g
    /\ 0 < width g /\ 0 < height g
    /\ right g = left g + width g /\ bottom g = top g + height g
    /\ (forall z, @None Z = Some z -> 0 < z -> width g = z)
    /\ (forall z, @None Z = Some z -> 0 < z -> height g = z).
Proof.
  apply (create_geometry quiet 7 true None None None None None None
           DEFAULT_ASPECT DEFAULT_DEPTH None false false None initial_world
           created.1 (the_display created)).
  - reflexivity.
  - reflexivity.
  - vm_compute. reflexivity.
Defined.

Lemma create_current_witness :
  ident (the_display created) = 7%nat
  /\ INSTANCE created.1 = Some (default 7%nat (INSTANCE initial_world))
  /\ (INSTANCE initial_world <> None
      -> ALLOW_MULTIPLE_DISPLAYS initial_world = true).
Proof.
  apply (create_current quiet 7 true None None None None None None
           DEFAULT_ASPECT DEFAULT_DEPTH None false false None initial_world
           created.1 (the_display created)).
  vm_compute. reflexivity.
Defined.

(** [create_ignores_frame_rate] at a call that asks for 30 frames a second. *)
Lemma create_ignores_frame_rate_witness :
  frames_per_second
    (the_display
       (create quiet 7 true None None None None None None DEFAULT_ASPECT
          DEFAULT_DEPTH None false false (Some 30%float) initial_world))
  = None.
Proof.
  apply (create_ignores_frame_rate quiet 7 true None None None None None None
           DEFAULT_ASPECT DEFAULT_DEPTH None false false (Some 30%float)
           initial_world created.1).
  vm_compute. reflexivity.
Defined.

Lemma create_then_loop_running_witness :
  loop_running quiet (the_display created) created.1
  = (set_external_loop true
       (set_time (Some (clock quiet (ticks created.1))) (the_display created)),
     record [glClear] (tick created.1), Ret true).
Proof.
  apply (create_then_loop_running quiet 7 true None None None None None None
           DEFAULT_ASPECT DEFAULT_DEPTH None false false None initial_world
           created.1 (the_display created) created.1).
  vm_compute. reflexivity.
Defined.

Lemma created_mouse_position_witness :
  mouse_position (the_display created) created.1
  = (the_display created, created.1, Ret (-1, -1)).
Proof.
  apply (created_mouse_position quiet 7 true None None None None None None
           DEFAULT_ASPECT DEFAULT_DEPTH None false false None initial_world
           created.1 (the_display created) created.1).
  vm_compute. reflexivity.
Defined.

(** [removal_does_not_cancel_add] at sprite 5 on the fresh display. *)
Lemma removal_does_not_cancel_add_witness :
  5%nat ∈ items (sprites
    (after (bind (add_sprites [5%nat]) (fun _ =>
              bind (remove_sprites [5%nat]) (fun _ => _loop_begin quiet)))
       fresh).1).
Proof.
  apply (removal_does_not_cancel_add quiet 5%nat fresh.1 fresh.2
           (after (bind (add_sprites [5%nat]) (fun _ =>
                     bind (remove_sprites [5%nat]) (fun _ => _loop_begin quiet)))
              fresh).1
           (after (bind (add_sprites [5%nat]) (fun _ =>
                     bind (remove_sprites [5%nat]) (fun _ => _loop_begin quiet)))
              fresh).2 []).
  - reflexivity.
  - vm_compute. reflexivity.
Defined.

(** [unknown_sprite_is_unloaded] at sprite 9, marked on the fresh display
    without ever having been added. *)
Lemma unknown_sprite_is_unloaded_witness :
  exists evs,
    trace (after (_loop_end quiet) (after (remove_sprites [9%nat]) fresh)).2
    = trace (after (remove_sprites [9%nat]) fresh).2 ++ evs
    /\ received 9 evs = [unload_opengl 9].
Proof.
  apply (unknown_sprite_is_unloaded quiet 9%nat
           (after (remove_sprites [9%nat]) fresh).1
           (after (remove_sprites [9%nat]) fresh).2
           (after (_loop_end quiet) (after (remove_sprites [9%nat]) fresh)).1
           (after (_loop_end quiet) (after (remove_sprites [9%nat]) fresh)).2).
  - apply (bool_decide_unpack
             (9%nat ∈ sprites_to_unload (after (remove_sprites [9%nat]) fresh).1)).
    vm_compute. exact I.
  - intros Hin. vm_compute in Hin. by apply elem_of_nil in Hin.
  - vm_compute. reflexivity.
Defined.

(** [load_then_first_repaint] at sprite 1, pending on the fresh display. *)
Lemma load_then_first_repaint_witness :
  exists evs,
    trace (after (bind (_loop_begin quiet) (fun _ => _loop_end quiet))
             (after (add_sprites [1; 2]%nat) fresh)).2
    = trace (after (add_sprites [1; 2]%nat) fresh).2 ++ evs
    /\ received 1 evs = [load_opengl 1; repaint 1 10.0%float].
Proof.
  apply (load_then_first_repaint quiet 1%nat
           (after (add_sprites [1; 2]%nat) fresh).1
           (after (add_sprites [1; 2]%nat) fresh).2
           (after (bind (_loop_begin quiet) (fun _ => _loop_end quiet))
              (after (add_sprites [1; 2]%nat) fresh)).1
           (after (bind (_loop_begin quiet) (fun _ => _loop_end quiet))
              (after (add_sprites [1; 2]%nat) fresh)).2 []).
  - reflexivity.
  - vm_compute. reflexivity.
  - apply (bool_decide_unpack
             (1%nat ∈ sprites_to_load (after (add_sprites [1; 2]%nat) fresh).1)).
    vm_compute. exact I.
  - apply not_elem_of_nil.
  - vm_compute. reflexivity.
Defined.
